(** * silero-vad tooling: the benchmark runner and the snapshot regression test

    A shallow embedding of [bench_python.py] and [tests/test_snapshots.py].
    Python floats are IEEE binary64 values ([PrimFloat.float]), Python ints
    are [Z], exceptions are an error type threaded through a small state and
    error monad, the file system is a finite map from paths to nodes, and
    the calls into [silero_vad], [time], [json] and [torch] are recorded in
    an event log. *)

From Stdlib Require Import ZArith List String Ascii Bool Lia.
From Stdlib Require Import Floats DecimalString QArith Qpower.
From stdpp Require Import gmap strings.

Local Open Scope Z_scope.
Local Open Scope string_scope.

Set Warnings "-inexact-float,-register-all".

(** ** Part I. The Python fragment the two scripts rely on *)

Module Py.

(** Exceptions that can leave the code under study. [ExternalError] stands
    for whatever the external Detector or Audio Reader raises. *)
Inductive exn : Type :=
| ZeroDivisionError
| OverflowError
| StatisticsError
| ValueError
| AssertionError
| PytestFailed (msg : string)
| FileExistsError
| FileNotFoundError
| IsADirectoryError
| NotADirectoryError
| JSONDecodeError
| ExternalError (what : string).

Inductive result (A : Type) : Type :=
| Ok (a : A)
| Raise (e : exn).

Arguments Ok {A} a.
Arguments Raise {A} e.

Definition is_ok {A} (r : result A) : bool :=
  match r with Ok _ => true | Raise _ => false end.

(** *** Floats *)

Definition float_zero : float := PrimFloat.zero.
Definition float_inf : float := PrimFloat.infinity.

Definition is_nan (x : float) : bool := PrimFloat.is_nan x.

Definition is_finite (x : float) : bool :=
  match Prim2SF x with
  | S754_zero _ | S754_finite _ _ _ => true
  | S754_infinity _ | S754_nan => false
  end.

(** [float(n)] for a Python int: the nearest binary64 value (ties to even),
    [OverflowError] when the int is beyond the finite range. *)
Definition float_of_int (n : Z) : result float :=
  match binary_normalize prec emax n 0 false with
  | S754_infinity _ | S754_nan => Raise OverflowError
  | sf => Ok (SF2Prim sf)
  end.

(** [x / y] on floats: Python raises on a zero divisor, IEEE otherwise. *)
Definition py_truediv (x y : float) : result float :=
  if PrimFloat.eqb y float_zero then Raise ZeroDivisionError
  else Ok (PrimFloat.div x y).

(** Truth value of a float: [x != 0.0]. *)
Definition float_truthy (x : float) : bool := negb (PrimFloat.eqb x float_zero).

(** The builtins [min] and [max] over a list: keep the first element and
    replace it whenever a later one compares strictly below (above) it. *)
Definition py_min (xs : list float) : result float :=
  match xs with
  | [] => Raise ValueError
  | x :: rest =>
      Ok (fold_left (fun best item => if PrimFloat.ltb item best then item else best) rest x)
  end.

Definition py_max (xs : list float) : result float :=
  match xs with
  | [] => Raise ValueError
  | x :: rest =>
      Ok (fold_left (fun best item => if PrimFloat.ltb best item then item else best) rest x)
  end.

(** *** [statistics.mean]

    [statistics.mean] adds its data exactly (as fractions), divides the
    exact total by the count and converts the quotient to a float once,
    rounding to nearest. A finite binary64 value is [m * 2^e]; exact totals
    are kept as such a pair. *)
Definition dyadic : Type := (Z * Z)%type.

Definition exact_ratio (x : float) : option dyadic :=
  match Prim2SF x with
  | S754_zero _ => Some (0, 0)
  | S754_finite s m e => Some (if s then Z.neg m else Z.pos m, e)
  | S754_infinity _ | S754_nan => None
  end.

Definition dyadic_add (a b : dyadic) : dyadic :=
  let '(ma, ea) := a in
  let '(mb, eb) := b in
  let e := Z.min ea eb in
  (ma * 2 ^ (ea - e) + mb * 2 ^ (eb - e), e).

Fixpoint exact_sum (data : list float) (acc : dyadic) : option dyadic :=
  match data with
  | [] => Some acc
  | x :: rest =>
      match exact_ratio x with
      | Some d => exact_sum rest (dyadic_add acc d)
      | None => None
      end
  end.

(** [float(Fraction(m * 2^e) / n)]: one correctly rounded division. *)
Definition float_of_quotient (total : dyadic) (n : positive) : float :=
  let '(m, e) := total in
  match m with
  | Z0 => float_zero
  | Zpos p => SF2Prim (SFdiv prec emax (S754_finite false p e) (S754_finite false n 0))
  | Zneg p => SF2Prim (SFdiv prec emax (S754_finite true p e) (S754_finite false n 0))
  end.

Definition statistics_mean (data : list float) : result float :=
  match data with
  | [] => Raise StatisticsError
  | x :: rest =>
      let n := Pos.of_succ_nat (length rest) in
      match exact_sum data (0, 0) with
      | Some total => Ok (float_of_quotient total n)
      | None =>
          (* a non-finite entry: the float sum of the non-finite entries, over n *)
          let nonfinite := List.filter (fun y => negb (is_finite y)) data in
          Ok (PrimFloat.div (fold_left PrimFloat.add nonfinite float_zero)
                            (SF2Prim (binary_normalize prec emax (Z.pos n) 0 false)))
      end
  end.

(** *** String formatting

    [str(n)] for an int, and the format spec [.Nf] for a float: the decimal
    expansion with [N] fractional digits of the exact binary value, rounded
    half to even. *)
Definition str_of_int (n : Z) : string := NilZero.string_of_int (Z.to_int n).

Fixpoint zeros (n : nat) : string :=
  match n with
  | O => ""
  | S k => "0" ++ zeros k
  end.

Definition zero_pad (width : nat) (s : string) : string :=
  zeros (width - String.length s) ++ s.

Definition round_half_even_div (num den : Z) : Z :=
  let q := num / den in
  let r := num mod den in
  match Z.compare (2 * r) den with
  | Lt => q
  | Gt => q + 1
  | Eq => if Z.even q then q else q + 1
  end.

Definition format_fixed (digits : nat) (x : float) : string :=
  let scale := 10 ^ Z.of_nat digits in
  let sign (s : bool) := if s then "-" else "" in
  let body (n : Z) :=
    str_of_int (n / scale) ++
    match digits with
    | O => ""
    | S _ => "." ++ zero_pad digits (str_of_int (n mod scale))
    end in
  match Prim2SF x with
  | S754_nan => "nan"
  | S754_infinity s => sign s ++ "inf"
  | S754_zero s => sign s ++ body 0
  | S754_finite s m e =>
      sign s ++ body (if (0 <=? e)%Z then (Z.pos m * 2 ^ e * scale)%Z
                      else round_half_even_div (Z.pos m * scale) (2 ^ (- e)))
  end.

(** *** Values that cross the JSON boundary

    The objects the snapshot test builds, stores and compares: [None],
    bools, ints, floats, strings, lists, and dicts with string keys (kept
    in insertion order). *)
Inductive pyvalue : Type :=
| PyNone
| PyBool (b : bool)
| PyInt (n : Z)
| PyFloat (x : float)
| PyStr (s : string)
| PyList (items : list pyvalue)
| PyDict (items : list (string * pyvalue)).

(** Keyword arguments of a call, in the order they are written. *)
Definition kwargs : Type := list (string * pyvalue).

Fixpoint dict_get (k : string) (d : list (string * pyvalue)) : option pyvalue :=
  match d with
  | [] => None
  | (k', v) :: rest => if String.eqb k k' then Some v else dict_get k rest
  end.

(** An int against a float: compared exactly, never through rounding. *)
Definition float_eq_int (x : float) (n : Z) : bool :=
  match Prim2SF x with
  | S754_zero _ => (n =? 0)%Z
  | S754_finite s m e =>
      let v := if s then Z.neg m else Z.pos m in
      if (0 <=? e)%Z then (n =? v * 2 ^ e)%Z else (n * 2 ^ (- e) =? v)%Z
  | S754_infinity _ | S754_nan => false
  end.

Definition Z_of_bool (b : bool) : Z := if b then 1 else 0.

(** [a == b]. Numbers compare by value across bool, int and float; lists
    compare element by element; dicts compare by size and by looking every
    key of the left one up in the right one. *)
Fixpoint py_eq (a b : pyvalue) {struct a} : bool :=
  match a, b with
  | PyNone, PyNone => true
  | PyBool x, PyBool y => Bool.eqb x y
  | PyBool x, PyInt n | PyInt n, PyBool x => (Z_of_bool x =? n)%Z
  | PyBool x, PyFloat y | PyFloat y, PyBool x => float_eq_int y (Z_of_bool x)
  | PyInt m, PyInt n => (m =? n)%Z
  | PyInt n, PyFloat y | PyFloat y, PyInt n => float_eq_int y n
  | PyFloat x, PyFloat y => PrimFloat.eqb x y
  | PyStr s, PyStr t => String.eqb s t
  | PyList xs, PyList ys =>
      (fix list_eq (xs ys : list pyvalue) {struct xs} : bool :=
         match xs, ys with
         | [], [] => true
         | x :: xs', y :: ys' => py_eq x y && list_eq xs' ys'
         | _, _ => false
         end) xs ys
  | PyDict da, PyDict db =>
      (length da =? length db)%nat &&
      (fix items_eq (da : list (string * pyvalue)) {struct da} : bool :=
         match da with
         | [] => true
         | (k, v) :: rest =>
             match dict_get k db with
             | Some w => py_eq v w
             | None => false
             end && items_eq rest
         end) da
  | _, _ => false
  end.

End Py.

(** *** The order of binary64 values, as a lexicographic key *)

Module FloatOrder.
Import Py.
Local Open Scope Z_scope.

(** A key whose lexicographic order is the order of the non-NaN values. *)
Definition key (x : spec_float) : Z * Z * Z :=
  match x with
  | S754_nan => (0, 0, 0)
  | S754_zero _ => (0, 0, 0)
  | S754_infinity s => (if s then -2 else 2, 0, 0)
  | S754_finite s m e => if s then (-1, - e, Z.neg m) else (1, e, Z.pos m)
  end.

Definition lex (a b : Z * Z * Z) : comparison :=
  match fst (fst a) ?= fst (fst b) with
  | Eq =>
      match snd (fst a) ?= snd (fst b) with
      | Eq => snd a ?= snd b
      | c => c
      end
  | c => c
  end.

Definition lex_le (a b : Z * Z * Z) : Prop := lex a b <> Gt.
Definition lex_lt (a b : Z * Z * Z) : Prop := lex a b = Lt.

Definition not_nan (x : float) : Prop := is_nan x = false.

End FloatOrder.

(** ** Part II. The world the scripts run in *)

Module Runtime.
Import Py.

(** A loaded detection model is an opaque handle; audio is a 1-D tensor. *)
Inductive model : Type := ModelHandle (id : nat).
Definition tensor : Type := list float.
Definition numel (audio : tensor) : Z := Z.of_nat (length audio).

(** Paths are lists of components, outermost first. *)
Definition path : Type := list string.
Definition path_join (p : path) (name : string) : path := (p ++ [name])%list.
Definition path_parent (p : path) : path := removelast p.

Inductive node : Type :=
| Dir
| File (content : string).

(** Everything the scripts do to the outside, in program order. *)
Inductive event : Type :=
| SetNumThreads (n : Z)
| LoadModel (kw : kwargs)
| ReadAudio (file : string) (kw : kwargs)
| Detect (audio : tensor) (m : model) (kw : kwargs)
| PerfCounter
| Print (line : string)
| Mkdir (p : path)
| Exists (p : path)
| OpenRead (p : path)
| OpenWrite (p : path) (content : string).

(** The external collaborators. [clock k] is what the [k]-th call of
    [time.perf_counter] returns; [tests_dir] is the directory of the test
    module ([Path(__file__).parent]). *)
Record externals : Type := {
  load_silero_vad : kwargs -> result model;
  read_audio : string -> kwargs -> result tensor;
  get_speech_timestamps : tensor -> model -> kwargs -> result pyvalue;
  clock : nat -> float;
  json_dumps : pyvalue -> kwargs -> string;
  json_loads : string -> result pyvalue;
  tests_dir : path
}.

Record world : Type := {
  fs : gmap path node;
  ticks : nat
}.

Definition set_fs (f : gmap path node) (w : world) : world :=
  {| fs := f; ticks := ticks w |}.

(** State, exception and event-log monad: a computation returns its
    result or the exception it raised, the world it leaves, and the events
    it performed in order. An exception keeps the world as it was when it
    was raised, so that effects performed before it persist. *)
Definition M (A : Type) : Type := world -> result A * world * list event.

Definition ret {A} (a : A) : M A := fun w => (Ok a, w, []).

Definition bind {A B} (c : M A) (k : A -> M B) : M B :=
  fun w =>
    match c w with
    | (Ok a, w', evs) =>
        let '(r, w'', evs') := k a w' in (r, w'', (evs ++ evs')%list)
    | (Raise e, w', evs) => (Raise e, w', evs)
    end.

Definition raise {A} (e : exn) : M A := fun w => (Raise e, w, []).

Definition lift {A} (r : result A) : M A := fun w => (r, w, []).

Definition emit (ev : event) : M unit := fun w => (Ok tt, w, [ev]).

(** Update the world, or fail, without logging anything. *)
Definition step {A} (f : world -> result A * world) : M A :=
  fun w => let '(r, w') := f w in (r, w', []).

Definition outcome_of {A} (c : M A) (w : world) : result A := fst (fst (c w)).
Definition world_after {A} (c : M A) (w : world) : world := snd (fst (c w)).
Definition events_of {A} (c : M A) (w : world) : list event := snd (c w).

End Runtime.

Declare Scope py_scope.
Delimit Scope py_scope with py.
Notation "'let!' x ':=' c 'in' k" := (Runtime.bind c (fun x => k))
  (at level 10, x name, c at level 100, k at level 200) : py_scope.
Notation "'run!' c 'in' k" := (Runtime.bind c (fun _ => k))
  (at level 10, c at level 100, k at level 200) : py_scope.

Module Effects.
Import Py Runtime.
Local Open Scope py_scope.

(** [for x in xs: body x] *)
Fixpoint for_each {A} (xs : list A) (body : A -> M unit) : M unit :=
  match xs with
  | [] => ret tt
  | x :: rest => run! body x in for_each rest body
  end.

(** [for _ in range(n): body]; an empty range when [n <= 0]. *)
Fixpoint repeat_n (n : nat) (body : M unit) : M unit :=
  match n with
  | O => ret tt
  | S k => run! body in repeat_n k body
  end.

Definition range_len (n : Z) : nat := Z.to_nat n.

(** *** Calls into the external libraries *)

Definition call_load (env : externals) (kw : kwargs) : M model :=
  run! emit (LoadModel kw) in lift (load_silero_vad env kw).

Definition call_read_audio (env : externals) (file : string) (kw : kwargs) : M tensor :=
  run! emit (ReadAudio file kw) in lift (read_audio env file kw).

Definition call_detect (env : externals) (audio : tensor) (m : model) (kw : kwargs) : M pyvalue :=
  run! emit (Detect audio m kw) in lift (get_speech_timestamps env audio m kw).

Definition time_perf_counter (env : externals) : M float :=
  run! emit PerfCounter in
  step (fun w => (Ok (clock env (ticks w)), {| fs := fs w; ticks := S (ticks w) |})).

Definition print (line : string) : M unit := emit (Print line).

Definition torch_set_num_threads (n : Z) : M unit := emit (SetNumThreads n).

(** *** [pathlib] on the modelled file system *)

(** [p.mkdir(exist_ok=True)] (no [parents]): nothing to do for a directory
    that is there, [FileExistsError] when a file has the name, and the
    parent must be a directory. *)
Definition path_mkdir_exist_ok (p : path) : M unit :=
  run! emit (Mkdir p) in
  step (fun w =>
    match fs w !! p with
    | Some Dir => (Ok tt, w)
    | Some (File _) => (Raise FileExistsError, w)
    | None =>
        match fs w !! path_parent p with
        | Some Dir => (Ok tt, set_fs (<[p := Dir]> (fs w)) w)
        | Some (File _) => (Raise NotADirectoryError, w)
        | None => (Raise FileNotFoundError, w)
        end
    end).

Definition path_exists (p : path) : M bool :=
  run! emit (Exists p) in
  step (fun w => (Ok (bool_decide (is_Some (fs w !! p))), w)).

(** [with p.open() as f: f.read()] *)
Definition path_read_text (p : path) : M string :=
  run! emit (OpenRead p) in
  step (fun w =>
    match fs w !! p with
    | Some (File content) => (Ok content, w)
    | Some Dir => (Raise IsADirectoryError, w)
    | None => (Raise FileNotFoundError, w)
    end).

(** [with p.open("w") as f: f.write(content)] *)
Definition path_write_text (p : path) (content : string) : M unit :=
  run! emit (OpenWrite p content) in
  step (fun w =>
    match fs w !! p with
    | Some Dir => (Raise IsADirectoryError, w)
    | _ =>
        match fs w !! path_parent p with
        | Some Dir => (Ok tt, set_fs (<[p := File content]> (fs w)) w)
        | Some (File _) => (Raise NotADirectoryError, w)
        | None => (Raise FileNotFoundError, w)
        end
    end).

End Effects.

(** ** Part III. [bench_python.py] *)

Module Bench.
Import Py Runtime Effects.
Local Open Scope py_scope.

(** The namespace [parse_args] returns. *)
Record args : Type := {
  audio : list string;
  runs : Z;
  warmup : Z;
  sampling_rate : Z;
  threshold : float;
  onnx : bool;
  opset : Z;
  return_seconds : bool
}.

(** The defaults of the command line, for a given [--audio] list. *)
Definition default_args (files : list string) : args :=
  {| audio := files; runs := 5; warmup := 1; sampling_rate := 16000;
     threshold := 0.5%float; onnx := false; opset := 16;
     return_seconds := false |}.

(** The same configuration with another [--opset]. *)
Definition with_opset (o : Z) (a : args) : args :=
  {| audio := audio a; runs := runs a; warmup := warmup a;
     sampling_rate := sampling_rate a; threshold := threshold a;
     onnx := onnx a; opset := o; return_seconds := return_seconds a |}.

Definition format_seconds (seconds : float) : string :=
  format_fixed 4 seconds ++ "s".

Definition load_kwargs (a : args) : kwargs :=
  [("onnx", PyBool (onnx a)); ("opset_version", PyInt (opset a))].

Definition read_kwargs (a : args) : kwargs :=
  [("sampling_rate", PyInt (sampling_rate a))].

Definition detect_kwargs (a : args) : kwargs :=
  [("threshold", PyFloat (threshold a));
   ("sampling_rate", PyInt (sampling_rate a));
   ("return_seconds", PyBool (return_seconds a))].

(** [audio.numel() / float(args.sampling_rate)] *)
Definition audio_duration_of (a : args) (samples : tensor) : result float :=
  match float_of_int (sampling_rate a) with
  | Raise e => Raise e
  | Ok rate =>
      match float_of_int (numel samples) with
      | Raise e => Raise e
      | Ok count => py_truediv count rate
      end
  end.

(** The timed loop: one sample, [perf_counter() - start], per call. *)
Fixpoint timed_runs (env : externals) (a : args) (samples : tensor) (m : model)
    (n : nat) (timings : list float) : M (list float) :=
  match n with
  | O => ret timings
  | S k =>
      let! start := time_perf_counter env in
      let! _ := call_detect env samples m (detect_kwargs a) in
      let! stop := time_perf_counter env in
      timed_runs env a samples m k (timings ++ [PrimFloat.sub stop start])%list
  end.

(** [mean_time / audio_duration if audio_duration else float("inf")] *)
Definition real_time_factor (mean_time audio_duration : float) : result float :=
  if float_truthy audio_duration then py_truediv mean_time audio_duration
  else Ok float_inf.

Record stats : Type := {
  mean_time : float;
  min_time : float;
  max_time : float;
  rtf : float
}.

(** Lines 95 to 98: the aggregates of one file. *)
Definition aggregate (timings : list float) (audio_duration : float) : result stats :=
  match statistics_mean timings with
  | Raise e => Raise e
  | Ok mean =>
      match py_min timings with
      | Raise e => Raise e
      | Ok lo =>
          match py_max timings with
          | Raise e => Raise e
          | Ok hi =>
              match real_time_factor mean audio_duration with
              | Raise e => Raise e
              | Ok r => Ok {| mean_time := mean; min_time := lo; max_time := hi; rtf := r |}
              end
          end
      end
  end.

Definition report_lines (a : args) (file : string) (audio_duration : float)
    (st : stats) : list string :=
  [ file ++ ":";
    "  duration: " ++ format_seconds audio_duration;
    "  runs: " ++ str_of_int (runs a) ++ ", warmup: " ++ str_of_int (warmup a);
    "  mean: " ++ format_seconds (mean_time st) ++ " | " ++
    "min: " ++ format_seconds (min_time st) ++ " | " ++
    "max: " ++ format_seconds (max_time st) ++ " | " ++
    "rtf: " ++ format_fixed 3 (rtf st) ++ "x" ].

(** The body of [for path in args.audio]. *)
Definition bench_file (env : externals) (a : args) (m : model) (file : string) : M unit :=
  let! samples := call_read_audio env file (read_kwargs a) in
  let! audio_duration := lift (audio_duration_of a samples) in
  run! repeat_n (range_len (warmup a))
         (let! _ := call_detect env samples m (detect_kwargs a) in ret tt) in
  let! timings := timed_runs env a samples m (range_len (runs a)) [] in
  let! st := lift (aggregate timings audio_duration) in
  for_each (report_lines a file audio_duration st) print.

Definition main (env : externals) (a : args) : M unit :=
  let! m := call_load env (load_kwargs a) in
  for_each (audio a) (bench_file env a m).

End Bench.

(** ** Part IV. [tests/test_snapshots.py] *)

Module Snapshots.
Import Py Runtime Effects.
Local Open Scope py_scope.

Definition SAMPLES : list string :=
  ["tests/data/test.wav"; "tests/data/test.opus"; "tests/data/test.mp3"].

Definition SNAPSHOT_DIR (env : externals) : path :=
  path_join (tests_dir env) "snapshots".

(** [Path(sample).name]: the last component of a slash-separated path,
    empty components and [.] dropped. *)
Fixpoint split_slash (s : string) (cur : string) : list string :=
  match s with
  | EmptyString => [cur]
  | String c rest =>
      if Ascii.eqb c "/"%char then cur :: split_slash rest ""
      else split_slash rest (cur ++ String c "")
  end.

Definition path_name (s : string) : string :=
  List.last (List.filter (fun c => negb (String.eqb c "" || String.eqb c ".")) (split_slash s "")) "".

Definition path_str (p : path) : string := String.concat "/" p.

(** Module level, line 8: executed once, when the test module is imported. *)
Definition module_body : M unit := torch_set_num_threads 1.

Definition snapshot_detect_kwargs : kwargs :=
  [("visualize_probs", PyBool false);
   ("return_seconds", PyBool true);
   ("time_resolution", PyInt 3)].

Definition snapshot_entry (sample : string) (sampling_rate : Z) (ts : pyvalue) : pyvalue :=
  PyDict [("file", PyStr (path_name sample));
          ("sampling_rate", PyInt sampling_rate);
          ("speech_timestamps", ts)].

Fixpoint compute_loop (env : externals) (m : model) (sample_paths : list string)
    (sampling_rate : Z) (results : list pyvalue) : M (list pyvalue) :=
  match sample_paths with
  | [] => ret results
  | sample :: rest =>
      let! samples := call_read_audio env sample [("sampling_rate", PyInt sampling_rate)] in
      let! ts := call_detect env samples m snapshot_detect_kwargs in
      compute_loop env m rest sampling_rate
        (results ++ [snapshot_entry sample sampling_rate ts])%list
  end.

Definition _compute_snapshot (env : externals) (m : model) (sample_paths : list string)
    (sampling_rate : Z) : M pyvalue :=
  let! results := compute_loop env m sample_paths sampling_rate [] in
  ret (PyList results).

Definition dump_kwargs : kwargs := [("indent", PyInt 2); ("sort_keys", PyBool true)].

Definition created_message (snapshot_path : path) : string :=
  "Snapshot created at " ++ path_str snapshot_path ++ ". Verify and re-run.".

Definition _write_or_assert (env : externals) (snapshot_path : path) (data : pyvalue) : M unit :=
  run! path_mkdir_exist_ok (SNAPSHOT_DIR env) in
  let! present := path_exists snapshot_path in
  if present then
    let! text := path_read_text snapshot_path in
    let! expected := lift (json_loads env text) in
    if py_eq data expected then ret tt else raise AssertionError
  else
    run! path_write_text snapshot_path (json_dumps env data dump_kwargs) in
    raise (PytestFailed (created_message snapshot_path)).

Definition test_jit_snapshot (env : externals) : M unit :=
  let! m := call_load env [("onnx", PyBool false)] in
  let! snaps := _compute_snapshot env m SAMPLES 16000 in
  _write_or_assert env (path_join (SNAPSHOT_DIR env) "jit.json")
    (PyDict [("model", PyStr "jit"); ("snapshots", snaps)]).

Definition test_onnx_snapshot (env : externals) : M unit :=
  let! m := call_load env [("onnx", PyBool true)] in
  let! snaps := _compute_snapshot env m SAMPLES 16000 in
  _write_or_assert env (path_join (SNAPSHOT_DIR env) "onnx.json")
    (PyDict [("model", PyStr "onnx"); ("snapshots", snaps)]).

(** The test runner imports the module, then runs each test function and
    records whether it passed or what it raised. *)
Definition run_test (t : M unit) : M (result unit) :=
  fun w => let '(r, w', evs) := t w in (Ok r, w', evs).

Definition pytest_session (env : externals) : M (list (result unit)) :=
  run! module_body in
  let! jit := run_test (test_jit_snapshot env) in
  let! onnx := run_test (test_onnx_snapshot env) in
  ret [jit; onnx].

(** *** The Snapshot Record, typed

    [{model, snapshots: [{file, sampling_rate, speech_timestamps:
    [{start, end}]}]}] with timestamps in seconds. *)
Record segment : Type := { seg_start : float; seg_end : float }.

Record entry : Type := {
  entry_file : string;
  entry_rate : Z;
  entry_timestamps : list segment
}.

Record snapshot_record : Type := {
  record_model : string;
  record_snapshots : list entry
}.

Definition segment_to_py (s : segment) : pyvalue :=
  PyDict [("start", PyFloat (seg_start s)); ("end", PyFloat (seg_end s))].

Definition entry_to_py (e : entry) : pyvalue :=
  PyDict [("file", PyStr (entry_file e));
          ("sampling_rate", PyInt (entry_rate e));
          ("speech_timestamps", PyList (map segment_to_py (entry_timestamps e)))].

Definition record_to_py (r : snapshot_record) : pyvalue :=
  PyDict [("model", PyStr (record_model r));
          ("snapshots", PyList (map entry_to_py (record_snapshots r)))].

End Snapshots.

(** ** Part V. The two protocols, declaratively *)

Module BenchSpec.
Import Py Runtime Effects Bench.

(** The samples the timed loop records when it starts at clock reading
    [t0]: the [k]-th is reading [t0 + 2k + 1] minus reading [t0 + 2k]. *)
Fixpoint recorded_timings (env : externals) (t0 : nat) (n : nat) : list float :=
  match n with
  | O => []
  | S k =>
      PrimFloat.sub (clock env (S t0)) (clock env t0)
      :: recorded_timings env (S (S t0)) k
  end.

(** Nothing the environment does for this file raises: the read, the
    duration of line 72 and the detection call. *)
Definition file_ok (env : externals) (a : args) (m : model) (file : string) : bool :=
  match read_audio env file (read_kwargs a) with
  | Raise _ => false
  | Ok samples =>
      is_ok (audio_duration_of a samples) &&
      is_ok (get_speech_timestamps env samples m (detect_kwargs a))
  end.

(** The events of one file of a run that completes, given what was read
    and the report lines printed at the end. *)
Definition file_events (a : args) (m : model) (file : string) (samples : tensor)
    (lines : list string) : list event :=
  (ReadAudio file (read_kwargs a)
   :: repeat (Detect samples m (detect_kwargs a)) (Z.to_nat (warmup a))
   ++ concat (repeat [PerfCounter; Detect samples m (detect_kwargs a); PerfCounter]
                     (Z.to_nat (runs a)))
   ++ map Print lines)%list.

(** The report of one file whose timed loop starts at reading [t0]. *)
Definition file_report (env : externals) (a : args) (file : string) (t0 : nat) : list string :=
  match read_audio env file (read_kwargs a) with
  | Raise _ => []
  | Ok samples =>
      match audio_duration_of a samples with
      | Raise _ => []
      | Ok d =>
          match aggregate (recorded_timings env t0 (Z.to_nat (runs a))) d with
          | Raise _ => []
          | Ok st => report_lines a file d st
          end
      end
  end.

Definition file_samples (env : externals) (a : args) (file : string) : tensor :=
  match read_audio env file (read_kwargs a) with
  | Raise _ => []
  | Ok samples => samples
  end.

Fixpoint files_events (env : externals) (a : args) (m : model) (files : list string)
    (t0 : nat) : list event :=
  match files with
  | [] => []
  | file :: rest =>
      (file_events a m file (file_samples env a file) (file_report env a file t0)
       ++ files_events env a m rest (t0 + 2 * Z.to_nat (runs a)))%list
  end.

(** The rational a finite float denotes, and the exact sum of a list. *)
Definition dyadic_value (d : dyadic) : Q := inject_Z (fst d) * (2 # 1) ^ snd d.

Definition float_value (x : float) : Q :=
  match exact_ratio x with
  | Some d => dyadic_value d
  | None => 0
  end.

Definition Qsum (l : list Q) : Q := fold_right Qplus 0%Q l.

Definition is_load (ev : event) : bool :=
  match ev with LoadModel _ => true | _ => false end.

Definition is_read_of (file : string) (ev : event) : bool :=
  match ev with ReadAudio f _ => String.eqb f file | _ => false end.

Definition is_detect (ev : event) : bool :=
  match ev with Detect _ _ _ => true | _ => false end.

Definition is_print (ev : event) : bool :=
  match ev with Print _ => true | _ => false end.

Definition is_pin (ev : event) : bool :=
  match ev with SetNumThreads _ => true | _ => false end.

Definition count (p : event -> bool) (evs : list event) : nat :=
  length (List.filter p evs).

End BenchSpec.

Module SnapshotSpec.
Import Py Runtime Effects Snapshots BenchSpec.

(** The thread pin in force at every detection call: scanning the events
    of a process from its start, each [Detect] must come after a
    [SetNumThreads 1] that no later call has changed. *)
Fixpoint pinned_at_every_detect (threads : option Z) (evs : list event) : bool :=
  match evs with
  | [] => true
  | SetNumThreads n :: rest => pinned_at_every_detect (Some n) rest
  | Detect _ _ _ :: rest =>
      match threads with
      | Some 1%Z => pinned_at_every_detect threads rest
      | _ => false
      end
  | _ :: rest => pinned_at_every_detect threads rest
  end.

(** The test directory exists, nothing but a directory has the name of the
    snapshot directory, and nothing but a regular file has the name of the
    snapshot file. *)
Definition sane (env : externals) (w : world) (name : string) : bool :=
  match fs w !! tests_dir env with
  | Some Dir =>
      match fs w !! SNAPSHOT_DIR env with
      | Some (File _) => false
      | _ =>
          match fs w !! path_join (SNAPSHOT_DIR env) name with
          | Some Dir => false
          | _ => true
          end
      end
  | _ => false
  end.

(** Leaf-by-leaf identity of two Snapshot Records: same strings, same
    ints, numerically equal timestamps, in the same positions. *)
Definition same_segment (s t : segment) : Prop :=
  PrimFloat.eqb (seg_start s) (seg_start t) = true /\
  PrimFloat.eqb (seg_end s) (seg_end t) = true.

Definition same_entry (e f : entry) : Prop :=
  entry_file e = entry_file f /\
  entry_rate e = entry_rate f /\
  Forall2 same_segment (entry_timestamps e) (entry_timestamps f).

Definition same_record (r s : snapshot_record) : Prop :=
  record_model r = record_model s /\
  Forall2 same_entry (record_snapshots r) (record_snapshots s).

(** The record a test builds when the Detector answers [segs sample] for
    each sample. *)
Definition built_record (name : string) (sampling_rate : Z) (sample_paths : list string)
    (segs : string -> list segment) : snapshot_record :=
  {| record_model := name;
     record_snapshots :=
       map (fun sample =>
              {| entry_file := path_name sample; entry_rate := sampling_rate;
                 entry_timestamps := segs sample |}) sample_paths |}.

(** The Audio Reader and the Detector succeed on [sample], with segments
    [segs sample]. *)
Definition detects (env : externals) (m : model) (sampling_rate : Z)
    (segs : string -> list segment) (sample : string) : Prop :=
  exists samples,
    read_audio env sample [("sampling_rate", PyInt sampling_rate)] = Ok samples /\
    get_speech_timestamps env samples m snapshot_detect_kwargs
    = Ok (PyList (map segment_to_py (segs sample))).

(** No timestamp of the record is a NaN. *)
Definition segment_ok (s : segment) : Prop :=
  is_nan (seg_start s) = false /\ is_nan (seg_end s) = false.

Definition record_ok (r : snapshot_record) : Prop :=
  Forall (fun e => Forall segment_ok (entry_timestamps e)) (record_snapshots r).

(** Replace the [end] of segment [j] of entry [i]. *)
Definition set_seg_end (x : float) (s : segment) : segment :=
  {| seg_start := seg_start s; seg_end := x |}.

Definition set_entry_end (j : nat) (x : float) (e : entry) : entry :=
  {| entry_file := entry_file e; entry_rate := entry_rate e;
     entry_timestamps := alter (set_seg_end x) j (entry_timestamps e) |}.

Definition set_end (i j : nat) (x : float) (r : snapshot_record) : snapshot_record :=
  {| record_model := record_model r;
     record_snapshots := alter (set_entry_end j x) i (record_snapshots r) |}.

Definition end_at (i j : nat) (r : snapshot_record) : option float :=
  match record_snapshots r !! i with
  | Some e =>
      match entry_timestamps e !! j with
      | Some s => Some (seg_end s)
      | None => None
      end
  | None => None
  end.

(** The world once [SNAPSHOT_DIR.mkdir(exist_ok=True)] has succeeded. *)
Definition after_mkdir (env : externals) (w : world) : world :=
  match fs w !! SNAPSHOT_DIR env with
  | Some _ => w
  | None => set_fs (<[SNAPSHOT_DIR env := Dir]> (fs w)) w
  end.

(** A computation that never calls [torch.set_num_threads]. *)
Definition no_pin {A} (c : M A) : Prop :=
  forall w, Forall (fun ev => is_pin ev = false) (events_of c w).

End SnapshotSpec.

(** ** Part VI. Test doubles

    A small JSON codec and a mock environment, used to run the models on
    concrete data. *)

Module Json.
Import Py.

Definition dquote : ascii := "034"%char.
Definition backslash : ascii := "092"%char.
Definition newline : ascii := "010"%char.

Fixpoint quote_body (s : string) : string :=
  match s with
  | EmptyString => EmptyString
  | String c rest =>
      if Ascii.eqb c dquote || Ascii.eqb c backslash
      then String backslash (String c (quote_body rest))
      else String c (quote_body rest)
  end.

Definition quote (s : string) : string :=
  String dquote (quote_body s ++ String dquote "").

(** One correctly rounded division [sign * num / den]. *)
Definition float_of_ratio (negative : bool) (num : Z) (den : positive) : float :=
  match num with
  | Zpos p => SF2Prim (SFdiv prec emax (S754_finite negative p 0) (S754_finite false den 0))
  | _ => if negative then PrimFloat.opp float_zero else float_zero
  end.

Definition digit_of (c : ascii) : option Z :=
  let n := Z.of_nat (nat_of_ascii c) in
  if (48 <=? n)%Z && (n <=? 57)%Z then Some (n - 48)%Z else None.

(** Leading decimal digits of [s]: their value, their number, the rest. *)
Fixpoint read_digits (s : string) (acc : Z) (n : nat) : Z * nat * string :=
  match s with
  | EmptyString => (acc, n, s)
  | String c rest =>
      match digit_of c with
      | Some d => read_digits rest (10 * acc + d) (S n)
      | None => (acc, n, s)
      end
  end.

(** A number: optional minus, digits, and for a float a fraction. *)
Definition read_number (s : string) : option (pyvalue * string) :=
  let '(negative, s1) :=
    match s with
    | String c rest => if Ascii.eqb c "-"%char then (true, rest) else (false, s)
    | EmptyString => (false, s)
    end in
  let '(whole, n, s2) := read_digits s1 0 0 in
  match n with
  | O => None
  | S _ =>
      match s2 with
      | String c rest =>
          if Ascii.eqb c "."%char then
            let '(all, k, s3) := read_digits rest whole 0 in
            match k with
            | O => None
            | S _ => Some (PyFloat (float_of_ratio negative all (Z.to_pos (10 ^ Z.of_nat k))), s3)
            end
          else Some (PyInt (if negative then - whole else whole), s2)
      | EmptyString => Some (PyInt (if negative then - whole else whole), s2)
      end
  end.

Definition parse_float (s : string) : option float :=
  match read_number s with
  | Some (PyFloat x, EmptyString) => Some x
  | _ => None
  end.

(** The shortest fixed-point decimal that reads back as [x]. For the
    timestamps of a snapshot (seconds with three decimals) this is what
    [repr] prints; [repr] switches to exponent notation only below 1e-4
    and from 1e16 on. *)
Fixpoint shortest_fixed (fuel : nat) (digits : nat) (x : float) : string :=
  let candidate := format_fixed digits x in
  match fuel with
  | O => candidate
  | S f =>
      match parse_float candidate with
      | Some y =>
          if PrimFloat.eqb x y then candidate else shortest_fixed f (S digits) x
      | None => candidate
      end
  end.

Definition float_repr (x : float) : string :=
  match Prim2SF x with
  | S754_nan => "NaN"
  | S754_infinity s => if s then "-Infinity" else "Infinity"
  | _ => shortest_fixed 1100 1 x
  end.

Fixpoint insert_sorted (kv : string * string) (l : list (string * string)) :=
  match l with
  | [] => [kv]
  | kv' :: rest =>
      if String.leb (fst kv) (fst kv') then kv :: l else kv' :: insert_sorted kv rest
  end.

Definition sort_items (l : list (string * string)) : list (string * string) :=
  fold_right insert_sorted [] l.

Fixpoint spaces (n : nat) : string :=
  match n with
  | O => ""
  | S k => " " ++ spaces k
  end.

Definition line_break (level : nat) : string := String newline (spaces (2 * level)).

(** [json.dumps(v, indent=2, sort_keys=True)] *)
Fixpoint dumps_at (level : nat) (v : pyvalue) : string :=
  match v with
  | PyNone => "null"
  | PyBool b => if b then "true" else "false"
  | PyInt n => str_of_int n
  | PyFloat x => float_repr x
  | PyStr s => quote s
  | PyList [] => "[]"
  | PyList items =>
      "[" ++ line_break (S level)
      ++ String.concat ("," ++ line_break (S level)) (map (dumps_at (S level)) items)
      ++ line_break level ++ "]"
  | PyDict [] => "{}"
  | PyDict items =>
      "{" ++ line_break (S level)
      ++ String.concat ("," ++ line_break (S level))
           (map (fun kv => quote (fst kv) ++ ": " ++ snd kv)
                (sort_items
                   ((fix each (l : list (string * pyvalue)) : list (string * string) :=
                       match l with
                       | [] => []
                       | (k, w) :: rest => (k, dumps_at (S level) w) :: each rest
                       end) items)))
      ++ line_break level ++ "}"
  end.

Definition dumps (v : pyvalue) (kw : kwargs) : string := dumps_at 0 v.

Definition is_space (c : ascii) : bool :=
  Ascii.eqb c " "%char || Ascii.eqb c newline || Ascii.eqb c "009"%char || Ascii.eqb c "013"%char.

Fixpoint skip_ws (s : string) : string :=
  match s with
  | String c rest => if is_space c then skip_ws rest else s
  | EmptyString => s
  end.

(** The body of a string literal, after the opening quote. *)
Fixpoint read_string (s : string) : option (string * string) :=
  match s with
  | EmptyString => None
  | String c rest =>
      if Ascii.eqb c dquote then Some ("", rest)
      else if Ascii.eqb c backslash then
        match rest with
        | String c' rest' =>
            match read_string rest' with
            | Some (body, tl) => Some (String c' body, tl)
            | None => None
            end
        | EmptyString => None
        end
      else
        match read_string rest with
        | Some (body, tl) => Some (String c body, tl)
        | None => None
        end
  end.

Definition expect (word : string) (v : pyvalue) (s : string) : option (pyvalue * string) :=
  if String.prefix word s
  then Some (v, substring (String.length word) (String.length s - String.length word) s)
  else None.

Fixpoint read_value (fuel : nat) (s : string) : option (pyvalue * string) :=
  match fuel with
  | O => None
  | S f =>
      match skip_ws s with
      | EmptyString => None
      | String c rest as s' =>
          if Ascii.eqb c "["%char then
            match skip_ws rest with
            | String "]"%char tl => Some (PyList [], tl)
            | _ =>
                match read_elements f rest with
                | Some (items, tl) => Some (PyList items, tl)
                | None => None
                end
            end
          else if Ascii.eqb c "{"%char then
            match skip_ws rest with
            | String "}"%char tl => Some (PyDict [], tl)
            | _ =>
                match read_members f rest with
                | Some (items, tl) => Some (PyDict items, tl)
                | None => None
                end
            end
          else if Ascii.eqb c dquote then
            match read_string rest with
            | Some (body, tl) => Some (PyStr body, tl)
            | None => None
            end
          else if Ascii.eqb c "n"%char then expect "null" PyNone s'
          else if Ascii.eqb c "t"%char then expect "true" (PyBool true) s'
          else if Ascii.eqb c "f"%char then expect "false" (PyBool false) s'
          else read_number s'
      end
  end
with read_elements (fuel : nat) (s : string) : option (list pyvalue * string) :=
  match fuel with
  | O => None
  | S f =>
      match read_value f s with
      | None => None
      | Some (v, tl) =>
          match skip_ws tl with
          | String ","%char tl' =>
              match read_elements f tl' with
              | Some (vs, tl'') => Some (v :: vs, tl'')
              | None => None
              end
          | String "]"%char tl' => Some ([v], tl')
          | _ => None
          end
      end
  end
with read_members (fuel : nat) (s : string) : option (list (string * pyvalue) * string) :=
  match fuel with
  | O => None
  | S f =>
      match skip_ws s with
      | String c rest =>
          if Ascii.eqb c dquote then
            match read_string rest with
            | None => None
            | Some (k, tl) =>
                match skip_ws tl with
                | String ":"%char tl1 =>
                    match read_value f tl1 with
                    | None => None
                    | Some (v, tl2) =>
                        match skip_ws tl2 with
                        | String ","%char tl3 =>
                            match read_members f tl3 with
                            | Some (kvs, tl4) => Some ((k, v) :: kvs, tl4)
                            | None => None
                            end
                        | String "}"%char tl3 => Some ([(k, v)], tl3)
                        | _ => None
                        end
                    end
                | _ => None
                end
            end
          else None
      | EmptyString => None
      end
  end.

(** [json.loads]: one value, then only white space. *)
Definition loads (s : string) : result pyvalue :=
  match read_value (String.length s) s with
  | Some (v, tl) =>
      match skip_ws tl with
      | EmptyString => Ok v
      | _ => Raise JSONDecodeError
      end
  | None => Raise JSONDecodeError
  end.

End Json.

Module Mock.
Import Py Runtime Bench Snapshots.
Local Open Scope float_scope.

Definition samples : tensor := [0; 0; 0; 0].

Definition timestamps : pyvalue :=
  PyList [segment_to_py {| seg_start := 0.5; seg_end := 1.25 |}].

(** An environment whose calls all succeed; [readings] are the successive
    values of the clock, and the loader ignores [opset_version]. *)
Definition env (readings : list float) : externals :=
  {| load_silero_vad := fun kw =>
       Ok (ModelHandle (match dict_get "onnx" kw with Some (PyBool true) => 1 | _ => 0 end));
     read_audio := fun _ _ => Ok samples;
     get_speech_timestamps := fun _ _ _ => Ok timestamps;
     clock := fun k => nth k readings 0;
     json_dumps := Json.dumps;
     json_loads := Json.loads;
     tests_dir := ["repo"; "tests"] |}.

Definition fresh : world := {| fs := {[ ["repo"; "tests"] := Dir ]}; ticks := 0 |}.

(** [--audio a.wav --runs 3 --warmup 0 --sampling-rate 2] *)
Definition args_three_runs : args :=
  {| audio := ["a.wav"]; runs := 3; warmup := 0; sampling_rate := 2;
     threshold := 0.5; onnx := false; opset := 16; return_seconds := false |}.

(** The same with [--runs 0]. *)
Definition args_no_runs : args :=
  {| audio := ["a.wav"]; runs := 0; warmup := 0; sampling_rate := 2;
     threshold := 0.5; onnx := false; opset := 16; return_seconds := false |}.

Definition record : snapshot_record :=
  {| record_model := "jit";
     record_snapshots :=
       [ {| entry_file := "test.wav"; entry_rate := 16000;
            entry_timestamps := [ {| seg_start := 0.5; seg_end := 1.25 |};
                                  {| seg_start := 2.034; seg_end := 3.125 |} ] |} ] |}.

(** What the reference codec reads back from what it wrote for [record]. *)
Definition stored : pyvalue :=
  Eval vm_compute in
    match Json.loads (Json.dumps (record_to_py record) dump_kwargs) with
    | Ok v => v
    | Raise _ => PyNone
    end.

End Mock.

(** *** More test doubles *)

Module Scenario.
Import Py Runtime Bench Snapshots.
Local Open Scope float_scope.

(** As [Mock.env], with an Audio Reader that does not find [missing]. *)
Definition env_missing (missing : string) : externals :=
  {| load_silero_vad := load_silero_vad (Mock.env []);
     read_audio := fun file _ =>
       if String.eqb file missing then Raise FileNotFoundError else Ok Mock.samples;
     get_speech_timestamps := get_speech_timestamps (Mock.env []);
     clock := clock (Mock.env []);
     json_dumps := json_dumps (Mock.env []);
     json_loads := json_loads (Mock.env []);
     tests_dir := tests_dir (Mock.env []) |}.

(** [--audio a.wav missing.wav b.wav --runs 3 --warmup 0 --sampling-rate 2] *)
Definition args_three_files : args :=
  {| audio := ["a.wav"; "missing.wav"; "b.wav"]; runs := 3; warmup := 0;
     sampling_rate := 2; threshold := 0.5; onnx := false; opset := 16;
     return_seconds := false |}.

(** [--audio a.wav --sampling-rate 0] *)
Definition args_zero_rate : args :=
  {| audio := ["a.wav"]; runs := 5; warmup := 1; sampling_rate := 0;
     threshold := 0.5; onnx := false; opset := 16; return_seconds := false |}.

(** As [Mock.env], with a loader that cannot fetch the model. *)
Definition env_no_model : externals :=
  {| load_silero_vad := fun _ => Raise (ExternalError "model not found");
     read_audio := read_audio (Mock.env []);
     get_speech_timestamps := get_speech_timestamps (Mock.env []);
     clock := clock (Mock.env []);
     json_dumps := json_dumps (Mock.env []);
     json_loads := json_loads (Mock.env []);
     tests_dir := tests_dir (Mock.env []) |}.

(** [--audio a.wav b.wav --runs -2 --warmup 3 --sampling-rate 2] *)
Definition args_negative_runs : args :=
  {| audio := ["a.wav"; "b.wav"]; runs := -2; warmup := 3; sampling_rate := 2;
     threshold := 0.5; onnx := false; opset := 16; return_seconds := false |}.

(** [--audio a.wav --runs 2 --warmup -1 --sampling-rate 2] *)
Definition args_negative_warmup : args :=
  {| audio := ["a.wav"]; runs := 2; warmup := -1; sampling_rate := 2;
     threshold := 0.5; onnx := false; opset := 16; return_seconds := false |}.

End Scenario.

(** *** Footprints and further declarative views *)

Module Footprint.
Import Py Runtime Effects Bench Snapshots BenchSpec SnapshotSpec.

(** A computation confined to the events [allowed], to the paths [owned]
    and, unless [timed], to the clock as it found it. *)
Definition confined (allowed : event -> bool) (owned : path -> Prop) (timed : bool)
    {A} (c : M A) : Prop :=
  forall w,
    Forall (fun ev => allowed ev = true) (events_of c w) /\
    (forall q, ~ owned q -> fs (world_after c w) !! q = fs w !! q) /\
    (timed = false -> ticks (world_after c w) = ticks w).

Definition nowhere : path -> Prop := fun _ => False.

(** What the benchmark may do: load, read audio, detect, read the clock,
    print. *)
Definition bench_event (ev : event) : bool :=
  match ev with
  | LoadModel _ | ReadAudio _ _ | Detect _ _ _ | PerfCounter | Print _ => true
  | _ => false
  end.

(** What a snapshot check may do: the four file-system calls. *)
Definition check_event (ev : event) : bool :=
  match ev with
  | Mkdir _ | Exists _ | OpenRead _ | OpenWrite _ _ => true
  | _ => false
  end.

(** What the snapshot test session may do: everything but the clock and
    printing. *)
Definition session_event (ev : event) : bool :=
  match ev with
  | PerfCounter | Print _ => false
  | _ => true
  end.

(** A computation that prints [n] lines when it returns and none when it
    raises. *)
Definition prints_all_or_nothing (n : nat) (c : M unit) : Prop :=
  forall w,
    (outcome_of c w = Ok tt -> count is_print (events_of c w) = n) /\
    (outcome_of c w <> Ok tt -> count is_print (events_of c w) = 0%nat).

Definition silent (ev : event) : bool := negb (is_print ev).

Definition jit_path (env : externals) : path := path_join (SNAPSHOT_DIR env) "jit.json".
Definition onnx_path (env : externals) : path := path_join (SNAPSHOT_DIR env) "onnx.json".

End Footprint.

(** *** The snapshot computation, sample by sample *)

Module SnapshotSteps.
Import Py Runtime Effects Bench Snapshots BenchSpec SnapshotSpec.
Local Open Scope list_scope.

(** One sample the two libraries answered: the decoded audio and whatever
    the Detector returned for it. *)
Record answered : Type := {
  ans_sample : string;
  ans_audio : tensor;
  ans_ts : pyvalue
}.

Definition answers (env : externals) (m : model) (sampling_rate : Z) (a : answered) : Prop :=
  read_audio env (ans_sample a) [("sampling_rate", PyInt sampling_rate)] = Ok (ans_audio a) /\
  get_speech_timestamps env (ans_audio a) m snapshot_detect_kwargs = Ok (ans_ts a).

Definition sample_events (m : model) (sampling_rate : Z) (a : answered) : list event :=
  [ReadAudio (ans_sample a) [("sampling_rate", PyInt sampling_rate)];
   Detect (ans_audio a) m snapshot_detect_kwargs].

Definition sample_entry (sampling_rate : Z) (a : answered) : pyvalue :=
  snapshot_entry (ans_sample a) sampling_rate (ans_ts a).

(** The sample on which the computation stops with [e], and the calls made
    for it: the read fails, or the read succeeds and the detection fails. *)
Definition fails_with (env : externals) (m : model) (sampling_rate : Z) (sample : string)
    (e : exn) (evs : list event) : Prop :=
  (read_audio env sample [("sampling_rate", PyInt sampling_rate)] = Raise e /\
   evs = [ReadAudio sample [("sampling_rate", PyInt sampling_rate)]]) \/
  (exists audio,
      read_audio env sample [("sampling_rate", PyInt sampling_rate)] = Ok audio /\
      get_speech_timestamps env audio m snapshot_detect_kwargs = Raise e /\
      evs = [ReadAudio sample [("sampling_rate", PyInt sampling_rate)];
             Detect audio m snapshot_detect_kwargs]).

(** The two tests by the flag they load the model with. *)
Definition snapshot_test (env : externals) (use_onnx : bool) : M unit :=
  if use_onnx then test_onnx_snapshot env else test_jit_snapshot env.

Definition snapshot_name (use_onnx : bool) : string :=
  if use_onnx then "onnx.json" else "jit.json".

Definition model_name (use_onnx : bool) : string :=
  if use_onnx then "onnx" else "jit".

(** A file name: no separator in it, and neither empty nor the dot. *)
Fixpoint slash_free (s : string) : bool :=
  match s with
  | EmptyString => true
  | String c rest => negb (Ascii.eqb c "/"%char) && slash_free rest
  end.

Definition is_file_name (s : string) : bool :=
  slash_free s && negb (String.eqb s "" || String.eqb s ".").

(** The Snapshot Record as it comes back from a file written with
    [sort_keys=True]: the same leaves, every dict with its keys in
    alphabetical order. *)
Definition segment_as_stored (s : segment) : pyvalue :=
  PyDict [("end", PyFloat (seg_end s)); ("start", PyFloat (seg_start s))].

Definition entry_as_stored (e : entry) : pyvalue :=
  PyDict [("file", PyStr (entry_file e));
          ("sampling_rate", PyInt (entry_rate e));
          ("speech_timestamps", PyList (map segment_as_stored (entry_timestamps e)))].

Definition record_as_stored (r : snapshot_record) : pyvalue :=
  PyDict [("model", PyStr (record_model r));
          ("snapshots", PyList (map entry_as_stored (record_snapshots r)))].

(** A world in which the name of the snapshot directory is taken by a
    regular file. *)
Definition blocked : world :=
  {| fs := {[ ["repo"; "tests"] := Dir; ["repo"; "tests"; "snapshots"] := File "" ]};
     ticks := 0 |}.

(** A world whose [jit.json] is not JSON. *)
Definition corrupt : world :=
  {| fs := {[ ["repo"; "tests"] := Dir;
              ["repo"; "tests"; "snapshots"] := Dir;
              ["repo"; "tests"; "snapshots"; "jit.json"] := File "{" ]};
     ticks := 0 |}.

(** What a test hands to the check when its samples were answered by
    [done]. *)
Definition test_data (use_onnx : bool) (done : list answered) : pyvalue :=
  PyDict [("model", PyStr (model_name use_onnx));
          ("snapshots", PyList (map (sample_entry 16000) done))].

(** The JSON library reads back what it wrote for [data] as an equal
    value. *)
Definition round_trips (env : externals) (data : pyvalue) : Prop :=
  exists stored,
    json_loads env (json_dumps env data dump_kwargs) = Ok stored /\
    py_eq data stored = true.

(** The world after a snapshot has been created under [name]. *)
Definition written (env : externals) (name : string) (text : string) (w : world) : world :=
  set_fs (<[path_join (SNAPSHOT_DIR env) name := File text]> (fs (after_mkdir env w)))
         (after_mkdir env w).

(** The three samples as the mock libraries answer them. *)
Definition mock_answers : list answered :=
  map (fun sample => {| ans_sample := sample; ans_audio := Mock.samples;
                        ans_ts := Mock.timestamps |}) SAMPLES.

End SnapshotSteps.

(** ** Part VII. Facts about binary64 comparison *)

Module FloatFacts.
Import Py FloatOrder.
Local Open Scope Z_scope.

Lemma SFcompare_key (x y : spec_float) :
  x <> S754_nan -> y <> S754_nan -> SFcompare x y = Some (lex (key x) (key y)).
Proof.
  intros Hx Hy.
  destruct x as [sx|sx| |sx mx ex], y as [sy|sy| |sy my ey]; try congruence;
    try (destruct sx; try destruct sy; reflexivity);
    try (destruct sy; reflexivity).
  destruct sx, sy; try reflexivity; unfold key, lex; cbn [fst snd SFcompare].
  rewrite Z.compare_opp. rewrite (Z.compare_antisym ex ey).
  destruct (ex ?= ey); reflexivity.
Qed.

Lemma lex_refl (a : Z * Z * Z) : lex a a = Eq.
Proof. unfold lex. now rewrite !Z.compare_refl. Qed.

Ltac lex_cases :=
  unfold lex_le, lex_lt, lex in *;
  repeat match goal with
  | H : context [?x ?= ?y] |- _ => destruct (Z.compare_spec x y); try congruence
  | |- context [?x ?= ?y] => destruct (Z.compare_spec x y); try congruence
  end; try lia.

Lemma lex_lt_le_trans (a b c : Z * Z * Z) : lex_lt a b -> lex_le b c -> lex_le a c.
Proof. destruct a as [[a1 a2] a3], b as [[b1 b2] b3], c as [[c1 c2] c3]; cbn. lex_cases. Qed.

Lemma lex_le_lt_trans (a b c : Z * Z * Z) : lex_le a b -> lex_lt b c -> lex_le a c.
Proof. destruct a as [[a1 a2] a3], b as [[b1 b2] b3], c as [[c1 c2] c3]; cbn. lex_cases. Qed.

Lemma lex_not_lt_le (a b : Z * Z * Z) : ~ lex_lt a b -> lex_le b a.
Proof. destruct a as [[a1 a2] a3], b as [[b1 b2] b3]; cbn. lex_cases. Qed.

Lemma not_nan_spec (x : float) : not_nan x -> Prim2SF x <> S754_nan.
Proof.
  unfold not_nan, is_nan, PrimFloat.is_nan. rewrite FloatAxioms.eqb_spec.
  intros H E. rewrite E in H. discriminate.
Qed.

Lemma leb_key (x y : float) :
  not_nan x -> not_nan y ->
  PrimFloat.leb x y = true <-> lex_le (key (Prim2SF x)) (key (Prim2SF y)).
Proof.
  intros Hx%not_nan_spec Hy%not_nan_spec.
  rewrite FloatAxioms.leb_spec. unfold SFleb. rewrite SFcompare_key by assumption.
  unfold lex_le. destruct (lex _ _); split; congruence.
Qed.

Lemma ltb_key (x y : float) :
  not_nan x -> not_nan y ->
  PrimFloat.ltb x y = true <-> lex_lt (key (Prim2SF x)) (key (Prim2SF y)).
Proof.
  intros Hx%not_nan_spec Hy%not_nan_spec.
  rewrite FloatAxioms.ltb_spec. unfold SFltb. rewrite SFcompare_key by assumption.
  unfold lex_lt. destruct (lex _ _); split; congruence.
Qed.

Lemma leb_refl (x : float) : not_nan x -> PrimFloat.leb x x = true.
Proof. intros H. apply leb_key; auto. unfold lex_le. now rewrite lex_refl. Qed.

Lemma ltb_leb_trans (x y z : float) :
  not_nan x -> not_nan y -> not_nan z ->
  PrimFloat.ltb x y = true -> PrimFloat.leb y z = true -> PrimFloat.leb x z = true.
Proof.
  intros Hx Hy Hz H1%ltb_key H2%leb_key; auto.
  apply leb_key; auto. eapply lex_lt_le_trans; eauto.
Qed.

Lemma lex_le_trans (a b c : Z * Z * Z) : lex_le a b -> lex_le b c -> lex_le a c.
Proof. destruct a as [[a1 a2] a3], b as [[b1 b2] b3], c as [[c1 c2] c3]; cbn. lex_cases. Qed.

Lemma leb_trans (x y z : float) :
  not_nan x -> not_nan y -> not_nan z ->
  PrimFloat.leb x y = true -> PrimFloat.leb y z = true -> PrimFloat.leb x z = true.
Proof.
  intros Hx Hy Hz H1%leb_key H2%leb_key; auto.
  apply leb_key; auto. eapply lex_le_trans; eauto.
Qed.

Lemma leb_ltb_trans (x y z : float) :
  not_nan x -> not_nan y -> not_nan z ->
  PrimFloat.leb x y = true -> PrimFloat.ltb y z = true -> PrimFloat.leb x z = true.
Proof.
  intros Hx Hy Hz H1%leb_key H2%ltb_key; auto.
  apply leb_key; auto. eapply lex_le_lt_trans; eauto.
Qed.

Lemma not_ltb_leb (x y : float) :
  not_nan x -> not_nan y -> PrimFloat.ltb x y = false -> PrimFloat.leb y x = true.
Proof.
  intros Hx Hy H. apply leb_key; auto. apply lex_not_lt_le.
  intros L%ltb_key; auto. congruence.
Qed.

(** A strictly positive float is not zero, and a zero is not positive. *)
Lemma positive_not_zero (d : float) :
  PrimFloat.ltb float_zero d = true -> PrimFloat.eqb d float_zero = false.
Proof.
  rewrite FloatAxioms.ltb_spec, FloatAxioms.eqb_spec.
  change (Prim2SF float_zero) with (S754_zero false).
  destruct (Prim2SF d) as [ [] | [] | | [] ]; vm_compute; congruence.
Qed.

End FloatFacts.

(** ** Part VIII. Running the monad *)

Module MonadFacts.
Import Py Runtime Effects.
Local Open Scope list_scope.

Lemma bind_ok {A B} (c : M A) (k : A -> M B) (w w' : world) (a : A) (evs : list event) :
  c w = (Ok a, w', evs) ->
  bind c k w = (let '(r, w'', evs') := k a w' in (r, w'', evs ++ evs')).
Proof. intros H. unfold bind. now rewrite H. Qed.

Lemma bind_raise {A B} (c : M A) (k : A -> M B) (w w' : world) (e : exn) (evs : list event) :
  c w = (Raise e, w', evs) -> bind c k w = (Raise e, w', evs).
Proof. intros H. unfold bind. now rewrite H. Qed.

Lemma bind_ok_ok {A B} (c : M A) (k : A -> M B) (w w' w'' : world) (a : A) (r : result B)
    (evs evs' : list event) :
  c w = (Ok a, w', evs) -> k a w' = (r, w'', evs') ->
  bind c k w = (r, w'', evs ++ evs').
Proof. intros H1 H2. rewrite (bind_ok _ _ _ _ _ _ H1). now rewrite H2. Qed.

Lemma run_lift {A} (r : result A) (w : world) : lift r w = (r, w, []).
Proof. reflexivity. Qed.

Lemma run_call_load (env : externals) (kw : kwargs) (w : world) :
  call_load env kw w = (load_silero_vad env kw, w, [LoadModel kw]).
Proof. unfold call_load, bind, emit, lift. reflexivity. Qed.

Lemma run_call_read_audio (env : externals) (file : string) (kw : kwargs) (w : world) :
  call_read_audio env file kw w = (read_audio env file kw, w, [ReadAudio file kw]).
Proof. unfold call_read_audio, bind, emit, lift. reflexivity. Qed.

Lemma run_call_detect (env : externals) (samples : tensor) (m : model) (kw : kwargs) (w : world) :
  call_detect env samples m kw w
  = (get_speech_timestamps env samples m kw, w, [Detect samples m kw]).
Proof. unfold call_detect, bind, emit, lift. reflexivity. Qed.

Lemma run_perf_counter (env : externals) (w : world) :
  time_perf_counter env w
  = (Ok (clock env (ticks w)), {| fs := fs w; ticks := S (ticks w) |}, [PerfCounter]).
Proof. reflexivity. Qed.

Lemma run_print (line : string) (w : world) : print line w = (Ok tt, w, [Print line]).
Proof. reflexivity. Qed.

End MonadFacts.

(** ** Part IX. The benchmark runner: proofs *)

Module BenchProofs.
Import Py FloatOrder Runtime Effects Bench BenchSpec FloatFacts MonadFacts.
Local Open Scope nat_scope.
Local Open Scope list_scope.

Lemma is_ok_inv {A} (r : result A) : is_ok r = true -> exists a, r = Ok a.
Proof. destruct r; [eauto | discriminate]. Qed.

Lemma warmup_loop (env : externals) (a : args) (samples : tensor) (m : model) (n : nat) (w : world) :
  is_ok (get_speech_timestamps env samples m (detect_kwargs a)) = true ->
  repeat_n n (bind (call_detect env samples m (detect_kwargs a)) (fun _ => ret tt)) w
  = (Ok tt, w, repeat (Detect samples m (detect_kwargs a)) n).
Proof.
  intros [ts Hd]%is_ok_inv. induction n as [|n IH]; [reflexivity|].
  cbn [repeat_n].
  erewrite bind_ok_ok; [| |exact IH].
  2:{ erewrite bind_ok_ok; [| |reflexivity].
      2:{ rewrite run_call_detect, Hd. reflexivity. }
      reflexivity. }
  reflexivity.
Qed.

Lemma timed_loop (env : externals) (a : args) (samples : tensor) (m : model) (n : nat) :
  is_ok (get_speech_timestamps env samples m (detect_kwargs a)) = true ->
  forall (acc : list float) (w : world),
    timed_runs env a samples m n acc w
    = (Ok (acc ++ recorded_timings env (ticks w) n),
       {| fs := fs w; ticks := ticks w + 2 * n |},
       concat (repeat [PerfCounter; Detect samples m (detect_kwargs a); PerfCounter] n)).
Proof.
  intros [ts Hd]%is_ok_inv. induction n as [|n IH]; intros acc w.
  - cbn. rewrite app_nil_r, Nat.add_0_r. now destruct w.
  - cbn [timed_runs recorded_timings repeat concat].
    erewrite bind_ok_ok; [|apply run_perf_counter|].
    2:{ erewrite bind_ok_ok; [|rewrite run_call_detect, Hd; reflexivity|].
        2:{ erewrite bind_ok_ok; [|apply run_perf_counter|apply IH]. reflexivity. }
        reflexivity. }
    cbn [fs ticks]. rewrite <- app_assoc. cbn. do 3 f_equal. lia.
Qed.

Lemma print_lines (lines : list string) (w : world) :
  for_each lines print w = (Ok tt, w, map Print lines).
Proof.
  induction lines as [|l lines IH]; [reflexivity|].
  cbn [for_each map]. erewrite bind_ok_ok; [|apply run_print|apply IH]. reflexivity.
Qed.

Lemma recorded_timings_length (env : externals) (n t0 : nat) :
  length (recorded_timings env t0 n) = n.
Proof. revert t0. induction n as [|n IH]; intros t0; cbn; [reflexivity|]. now rewrite IH. Qed.

(** *** The aggregates never fail on a non-empty sample list *)

Lemma real_time_factor_total (mean d : float) :
  real_time_factor mean d
  = Ok (if PrimFloat.eqb d float_zero then float_inf else PrimFloat.div mean d).
Proof.
  unfold real_time_factor, float_truthy, py_truediv.
  destruct (PrimFloat.eqb d float_zero); reflexivity.
Qed.

Lemma statistics_mean_total (x : float) (rest : list float) :
  exists mean, statistics_mean (x :: rest) = Ok mean.
Proof.
  unfold statistics_mean. destruct (exact_sum (x :: rest) (0%Z, 0%Z)); eauto.
Qed.

Lemma aggregate_total (x : float) (rest : list float) (d : float) :
  exists st, aggregate (x :: rest) d = Ok st.
Proof.
  unfold aggregate.
  destruct (statistics_mean_total x rest) as [mean ->].
  cbn [py_min py_max]. rewrite real_time_factor_total. eauto.
Qed.

Lemma recorded_timings_nonempty (env : externals) (t0 n : nat) :
  (0 < n)%nat -> exists x rest, recorded_timings env t0 n = x :: rest.
Proof. destruct n; [lia|]. cbn. eauto. Qed.

(** *** One file *)

Lemma bench_file_completes (env : externals) (a : args) (m : model) (file : string) (w : world) :
  file_ok env a m file = true ->
  (1 <= runs a)%Z ->
  bench_file env a m file w
  = (Ok tt,
     {| fs := fs w; ticks := ticks w + 2 * Z.to_nat (runs a) |},
     file_events a m file (file_samples env a file) (file_report env a file (ticks w))).
Proof.
  intros Hok Hruns. unfold file_ok in Hok.
  unfold file_samples, file_report, bench_file, range_len.
  destruct (read_audio env file (read_kwargs a)) as [samples|e] eqn:Hread; [|discriminate].
  apply andb_true_iff in Hok as [[d Hd]%is_ok_inv Hdet]. rewrite Hd.
  destruct (recorded_timings_nonempty env (ticks w) (Z.to_nat (runs a))) as (x & rest & Hrec); [lia|].
  rewrite Hrec. destruct (aggregate_total x rest d) as [st Hst]. rewrite Hst.
  erewrite bind_ok_ok; [| rewrite run_call_read_audio, Hread; reflexivity |].
  2:{ erewrite bind_ok_ok; [| rewrite run_lift, Hd; reflexivity |].
      2:{ erewrite bind_ok_ok; [| apply warmup_loop; exact Hdet |].
          2:{ erewrite bind_ok_ok; [| apply timed_loop; exact Hdet |].
              2:{ cbn [app]. rewrite Hrec.
                  erewrite bind_ok_ok; [| rewrite run_lift, Hst; reflexivity | apply print_lines].
                  reflexivity. }
              reflexivity. }
          reflexivity. }
      reflexivity. }
  reflexivity.
Qed.

(** With an empty timed loop the aggregation raises, after the calls. *)
Lemma bench_file_no_runs (env : externals) (a : args) (m : model) (file : string) (w : world) :
  file_ok env a m file = true ->
  (runs a <= 0)%Z ->
  bench_file env a m file w
  = (Raise StatisticsError, w,
     ReadAudio file (read_kwargs a)
     :: repeat (Detect (file_samples env a file) m (detect_kwargs a)) (Z.to_nat (warmup a))).
Proof.
  intros Hok Hruns. unfold file_ok in Hok. unfold file_samples, bench_file.
  destruct (read_audio env file (read_kwargs a)) as [samples|e] eqn:Hread; [|discriminate].
  apply andb_true_iff in Hok as [[d Hd]%is_ok_inv Hdet].
  replace (range_len (runs a)) with 0%nat by (unfold range_len; lia).
  erewrite bind_ok_ok; [| rewrite run_call_read_audio, Hread; reflexivity |].
  2:{ erewrite bind_ok_ok; [| rewrite run_lift, Hd; reflexivity |].
      2:{ erewrite bind_ok_ok; [| apply warmup_loop; exact Hdet |].
          2:{ erewrite bind_ok_ok; [| reflexivity |].
              2:{ erewrite bind_raise; [| reflexivity]. reflexivity. }
              reflexivity. }
          reflexivity. }
      reflexivity. }
  cbn. rewrite !app_nil_r. reflexivity.
Qed.

(** *** All files *)

Lemma files_loop (env : externals) (a : args) (m : model) (files : list string) :
  forallb (file_ok env a m) files = true ->
  (1 <= runs a)%Z ->
  forall w : world,
    for_each files (bench_file env a m) w
    = (Ok tt,
       {| fs := fs w; ticks := ticks w + length files * (2 * Z.to_nat (runs a)) |},
       files_events env a m files (ticks w)).
Proof.
  intros Hok Hruns. induction files as [|file files IH]; intros w.
  - cbn. rewrite Nat.add_0_r. now destruct w.
  - cbn [forallb] in Hok. apply andb_true_iff in Hok as [Hfile Hrest].
    cbn [for_each files_events].
    erewrite bind_ok_ok; [| apply bench_file_completes; assumption | apply (IH Hrest)].
    cbn [fs ticks length]. do 3 f_equal. lia.
Qed.

Lemma main_completes (env : externals) (a : args) (m : model) (w : world) :
  load_silero_vad env (load_kwargs a) = Ok m ->
  forallb (file_ok env a m) (audio a) = true ->
  (1 <= runs a)%Z ->
  main env a w
  = (Ok tt,
     {| fs := fs w; ticks := ticks w + length (audio a) * (2 * Z.to_nat (runs a)) |},
     LoadModel (load_kwargs a) :: files_events env a m (audio a) (ticks w)).
Proof.
  intros Hload Hok Hruns. unfold main.
  erewrite bind_ok_ok; [| rewrite run_call_load, Hload; reflexivity | apply files_loop; assumption].
  reflexivity.
Qed.

(** *** [min] and [max] return the least and the greatest sample *)

Lemma fold_min_least (rest : list float) (best : float) :
  not_nan best -> Forall not_nan rest ->
  let r := fold_left (fun b item => if PrimFloat.ltb item b then item else b) rest best in
  not_nan r /\ In r (best :: rest) /\
  PrimFloat.leb r best = true /\ Forall (fun x => PrimFloat.leb r x = true) rest.
Proof.
  revert best. induction rest as [|y rest IH]; intros best Hb Hrest; cbn [fold_left].
  - split; [assumption|]. split; [now left|]. split; [now apply leb_refl | constructor].
  - apply Forall_cons_iff in Hrest as [Hy Hrest].
    destruct (PrimFloat.ltb y best) eqn:Hlt.
    + destruct (IH y Hy Hrest) as (Hr & Hin & Hle & Hall).
      split; [assumption|]. split; [|split].
      * destruct Hin as [<-|Hin]; [right; now left | right; now right].
      * apply (leb_ltb_trans _ y best); auto.
      * constructor; assumption.
    + destruct (IH best Hb Hrest) as (Hr & Hin & Hle & Hall).
      split; [assumption|]. split; [|split].
      * destruct Hin as [<-|Hin]; [now left | right; now right].
      * assumption.
      * constructor; [|assumption]. apply (leb_trans _ best y); auto.
        now apply not_ltb_leb.
Qed.

Lemma fold_max_greatest (rest : list float) (best : float) :
  not_nan best -> Forall not_nan rest ->
  let r := fold_left (fun b item => if PrimFloat.ltb b item then item else b) rest best in
  not_nan r /\ In r (best :: rest) /\
  PrimFloat.leb best r = true /\ Forall (fun x => PrimFloat.leb x r = true) rest.
Proof.
  revert best. induction rest as [|y rest IH]; intros best Hb Hrest; cbn [fold_left].
  - split; [assumption|]. split; [now left|]. split; [now apply leb_refl | constructor].
  - apply Forall_cons_iff in Hrest as [Hy Hrest].
    destruct (PrimFloat.ltb best y) eqn:Hlt.
    + destruct (IH y Hy Hrest) as (Hr & Hin & Hle & Hall).
      split; [assumption|]. split; [|split].
      * destruct Hin as [<-|Hin]; [right; now left | right; now right].
      * apply (ltb_leb_trans best y _); auto.
      * constructor; assumption.
    + destruct (IH best Hb Hrest) as (Hr & Hin & Hle & Hall).
      split; [assumption|]. split; [|split].
      * destruct Hin as [<-|Hin]; [now left | right; now right].
      * assumption.
      * constructor; [|assumption]. apply (leb_trans y best _); auto.
        now apply not_ltb_leb.
Qed.

Lemma finite_not_nan (x : float) : is_finite x = true -> not_nan x.
Proof.
  unfold is_finite, not_nan, is_nan, PrimFloat.is_nan. rewrite FloatAxioms.eqb_spec.
  destruct (Prim2SF x) as [s|s| |s m e]; try discriminate; intros _.
  - reflexivity.
  - unfold SFeqb, SFcompare. destruct s; rewrite Z.compare_refl, Pos.compare_cont_refl; reflexivity.
Qed.

(** *** The exact total is the sum of exactly the given values *)

Lemma pow2_shift (k e : Z) :
  (0 <= k)%Z -> (inject_Z (2 ^ k) * (2 # 1) ^ e == (2 # 1) ^ (k + e))%Q.
Proof.
  intros Hk. rewrite Zpower_Qpower by assumption.
  rewrite Qpower_plus by discriminate. reflexivity.
Qed.

Lemma dyadic_add_value (a b : dyadic) :
  (dyadic_value (dyadic_add a b) == dyadic_value a + dyadic_value b)%Q.
Proof.
  destruct a as [ma ea], b as [mb eb]. unfold dyadic_add, dyadic_value. cbn [fst snd].
  set (e := Z.min ea eb).
  rewrite inject_Z_plus, !inject_Z_mult.
  rewrite Qmult_plus_distr_l, <- !Qmult_assoc.
  rewrite !pow2_shift by lia.
  replace (ea - e + e)%Z with ea by lia. replace (eb - e + e)%Z with eb by lia.
  reflexivity.
Qed.

Lemma finite_exact_ratio (x : float) :
  is_finite x = true -> exists d, exact_ratio x = Some d.
Proof.
  unfold is_finite, exact_ratio. destruct (Prim2SF x); try discriminate; eauto.
Qed.

Lemma exact_sum_value (data : list float) :
  Forall (fun x => is_finite x = true) data ->
  forall acc : dyadic,
  exists total,
    exact_sum data acc = Some total /\
    (dyadic_value total == dyadic_value acc + Qsum (map float_value data))%Q.
Proof.
  induction 1 as [|x data Hx Hdata IH]; intros acc; cbn [exact_sum map Qsum fold_right].
  - exists acc. split; [reflexivity|]. now rewrite Qplus_0_r.
  - destruct (finite_exact_ratio x Hx) as [d Hd]. rewrite Hd.
    destruct (IH (dyadic_add acc d)) as (total & Hsum & Hval).
    exists total. split; [assumption|].
    rewrite Hval, dyadic_add_value. unfold float_value at 2. rewrite Hd.
    fold (Qsum (map float_value data)). now rewrite Qplus_assoc.
Qed.

(** *** Counting events *)

Lemma count_app (p : event -> bool) (l1 l2 : list event) :
  count p (l1 ++ l2) = count p l1 + count p l2.
Proof. unfold count. now rewrite List.filter_app, length_app. Qed.

Lemma count_cons (p : event -> bool) (ev : event) (l : list event) :
  count p (ev :: l) = (if p ev then 1 else 0) + count p l.
Proof. unfold count. cbn. now destruct (p ev). Qed.

Lemma count_repeat (p : event -> bool) (ev : event) (n : nat) :
  count p (repeat ev n) = if p ev then n else 0.
Proof.
  induction n as [|n IH]; cbn [repeat].
  - now destruct (p ev).
  - rewrite count_cons, IH. now destruct (p ev).
Qed.

Lemma count_concat_repeat (p : event -> bool) (l : list event) (n : nat) :
  count p (concat (repeat l n)) = n * count p l.
Proof.
  induction n as [|n IH]; cbn [repeat concat]; [reflexivity|].
  rewrite count_app, IH. lia.
Qed.

Lemma count_prints (p : event -> bool) (lines : list string) :
  (forall s, p (Print s) = false) -> count p (map Print lines) = 0.
Proof.
  intros Hp. induction lines as [|l lines IH]; [reflexivity|].
  cbn [map]. now rewrite count_cons, Hp, IH.
Qed.

Lemma count_file_events (p : event -> bool) (a : args) (m : model) (file : string)
    (samples : tensor) (lines : list string) :
  (forall s, p (Print s) = false) ->
  count p (file_events a m file samples lines)
  = (if p (ReadAudio file (read_kwargs a)) then 1 else 0)
    + (if p (Detect samples m (detect_kwargs a)) then Z.to_nat (warmup a) else 0)
    + Z.to_nat (runs a)
      * ((if p PerfCounter then 2 else 0)
         + (if p (Detect samples m (detect_kwargs a)) then 1 else 0)).
Proof.
  intros Hp. unfold file_events.
  rewrite count_cons, !count_app, count_repeat, count_concat_repeat, count_prints by assumption.
  rewrite !count_cons. unfold count at 1. cbn [List.filter length].
  destruct (p PerfCounter), (p (Detect samples m (detect_kwargs a))); lia.
Qed.

Lemma count_files_events_load (env : externals) (a : args) (m : model) (files : list string)
    (t0 : nat) :
  count is_load (files_events env a m files t0) = 0.
Proof.
  revert t0. induction files as [|file files IH]; intros t0; [reflexivity|].
  cbn [files_events]. rewrite count_app, IH, count_file_events by reflexivity.
  cbn. lia.
Qed.

(** *** The opset value does not reach the per-file work *)

Lemma bind_ext {A B} (c : M A) (k k' : A -> M B) (w : world) :
  (forall a w', k a w' = k' a w') -> bind c k w = bind c k' w.
Proof.
  intros H. unfold bind. destruct (c w) as [[[a|e] w'] evs]; [|reflexivity].
  now rewrite H.
Qed.

Lemma for_each_ext {A} (xs : list A) (f g : A -> M unit) :
  (forall x w, f x w = g x w) -> forall w, for_each xs f w = for_each xs g w.
Proof.
  intros H. induction xs as [|x xs IH]; intros w; [reflexivity|].
  cbn [for_each]. unfold bind. rewrite H.
  destruct (g x w) as [[[[]|e] w'] evs]; [|reflexivity]. now rewrite IH.
Qed.

Lemma timed_runs_opset (env : externals) (a : args) (o : Z) (samples : tensor) (m : model)
    (n : nat) :
  forall acc w,
    timed_runs env (with_opset o a) samples m n acc w = timed_runs env a samples m n acc w.
Proof.
  induction n as [|n IH]; intros acc w; [reflexivity|].
  cbn [timed_runs]. apply bind_ext. intros start w1.
  apply bind_ext. intros _ w2. apply bind_ext. intros stop w3. apply IH.
Qed.

Lemma bench_file_opset (env : externals) (a : args) (o : Z) (m : model) (file : string)
    (w : world) :
  bench_file env (with_opset o a) m file w = bench_file env a m file w.
Proof.
  unfold bench_file. apply bind_ext. intros samples w1.
  apply bind_ext. intros d w2. apply bind_ext. intros _ w3.
  unfold bind at 1 3. cbn [runs with_opset]. rewrite timed_runs_opset. reflexivity.
Qed.

End BenchProofs.

(** ** Part X. The benchmark runner: the claims *)

Module BenchClaims.
Import Py FloatOrder Runtime Effects Bench BenchSpec FloatFacts MonadFacts BenchProofs.
Local Open Scope nat_scope.
Local Open Scope list_scope.

(** C1: the real-time factor of a file is [mean / duration] when the audio
    duration (sample count over sampling rate) is strictly positive and
    positive infinity when it is zero, and computing it never raises
    [ZeroDivisionError]. *)
Theorem real_time_factor_guarded (a : args) (samples : tensor) (timings : list float)
    (d : float) (st : stats) :
  audio_duration_of a samples = Ok d ->
  aggregate timings d = Ok st ->
  (exists count rate,
      float_of_int (numel samples) = Ok count /\
      float_of_int (sampling_rate a) = Ok rate /\
      d = PrimFloat.div count rate) /\
  (PrimFloat.ltb float_zero d = true -> rtf st = PrimFloat.div (mean_time st) d) /\
  (PrimFloat.eqb d float_zero = true -> rtf st = float_inf) /\
  (forall mean d', exists r, real_time_factor mean d' = Ok r) /\
  (forall file,
      List.last (report_lines a file d st) ""
      = "  mean: " ++ format_seconds (mean_time st) ++ " | " ++
        "min: " ++ format_seconds (min_time st) ++ " | " ++
        "max: " ++ format_seconds (max_time st) ++ " | " ++
        "rtf: " ++ format_fixed 3 (rtf st) ++ "x")%string.
Proof.
  intros Hd Hagg. split; [|split; [|split; [|split]]].
  - unfold audio_duration_of, py_truediv in Hd.
    destruct (float_of_int (sampling_rate a)) as [rate|]; [|discriminate].
    destruct (float_of_int (numel samples)) as [count|]; [|discriminate].
    destruct (PrimFloat.eqb rate float_zero); [discriminate|].
    exists count, rate. repeat split. congruence.
  - intros Hpos%positive_not_zero. unfold aggregate in Hagg.
    destruct (statistics_mean timings); [|discriminate].
    destruct (py_min timings); [|discriminate].
    destruct (py_max timings); [|discriminate].
    rewrite real_time_factor_total, Hpos in Hagg.
    injection Hagg as <-. reflexivity.
  - intros Hzero. unfold aggregate in Hagg.
    destruct (statistics_mean timings); [|discriminate].
    destruct (py_min timings); [|discriminate].
    destruct (py_max timings); [|discriminate].
    rewrite real_time_factor_total, Hzero in Hagg.
    injection Hagg as <-. reflexivity.
  - intros mean d'. rewrite real_time_factor_total. eauto.
  - intros file. reflexivity.
Qed.

(** Two seconds of audio and a mean of half a second: a factor of 0.25. *)
Lemma real_time_factor_guarded_witness :
  audio_duration_of Mock.args_three_runs Mock.samples = Ok 2%float /\
  aggregate [0.5%float] 2%float
  = Ok {| mean_time := 0.5; min_time := 0.5; max_time := 0.5; rtf := 0.25 |} /\
  rtf {| mean_time := 0.5; min_time := 0.5; max_time := 0.5; rtf := 0.25 |}
  = PrimFloat.div 0.5 2.
Proof.
  split; [reflexivity|]. split; [reflexivity|].
  apply (real_time_factor_guarded Mock.args_three_runs Mock.samples [0.5%float] 2%float);
    reflexivity.
Defined.



(** The scenario end to end: three timed runs that take 0.10, 0.20 and 0.30
    seconds on two seconds of audio print this report. *)
Example three_runs_report :
  List.filter is_print
    (events_of (main (Mock.env [0; 0.1; 0; 0.2; 0; 0.3]%float) Mock.args_three_runs) Mock.fresh)
  = [Print "a.wav:";
     Print "  duration: 2.0000s";
     Print "  runs: 3, warmup: 0";
     Print "  mean: 0.2000s | min: 0.1000s | max: 0.3000s | rtf: 0.100x"].
Proof. vm_compute. reflexivity. Qed.

(** C6: in a run that completes, the model is loaded once, before the
    first file; each file is read once, then detection is called [warmup]
    times, then [runs] more times, each between two clock readings whose
    difference is one recorded sample; the report is computed from exactly
    those [runs] samples. *)
Theorem benchmark_protocol (env : externals) (a : args) (m : model) (w : world) :
  load_silero_vad env (load_kwargs a) = Ok m ->
  forallb (file_ok env a m) (audio a) = true ->
  (1 <= runs a)%Z ->
  (0 <= warmup a)%Z ->
  outcome_of (main env a) w = Ok tt /\
  events_of (main env a) w
  = LoadModel (load_kwargs a) :: files_events env a m (audio a) (ticks w) /\
  count is_load (events_of (main env a) w) = 1 /\
  forall (file : string) (t0 : nat),
    let evs := file_events a m file (file_samples env a file) (file_report env a file t0) in
    count (is_read_of file) evs = 1 /\
    Z.of_nat (count is_detect evs) = (warmup a + runs a)%Z /\
    Z.of_nat (count (fun ev => match ev with PerfCounter => true | _ => false end) evs)
    = (2 * runs a)%Z /\
    Z.of_nat (length (recorded_timings env t0 (Z.to_nat (runs a)))) = runs a.
Proof.
  intros Hload Hok Hruns Hwarm.
  unfold outcome_of, events_of. rewrite (main_completes env a m w Hload Hok Hruns).
  cbn [fst snd]. split; [reflexivity|]. split; [reflexivity|]. split.
  - rewrite count_cons, count_files_events_load. reflexivity.
  - intros file t0.
    rewrite !count_file_events by reflexivity. cbn [is_read_of is_detect].
    rewrite String.eqb_refl, recorded_timings_length. lia.
Qed.

Lemma benchmark_protocol_witness :
  events_of (main (Mock.env [0; 0.1; 0; 0.2; 0; 0.3]%float) Mock.args_three_runs) Mock.fresh
  = LoadModel (load_kwargs Mock.args_three_runs)
    :: files_events (Mock.env [0; 0.1; 0; 0.2; 0; 0.3]%float) Mock.args_three_runs
         (ModelHandle 0) ["a.wav"] 0.
Proof.
  apply (benchmark_protocol (Mock.env [0; 0.1; 0; 0.2; 0; 0.3]%float) Mock.args_three_runs
           (ModelHandle 0) Mock.fresh); [reflexivity | reflexivity | cbn; lia | cbn; lia].
Defined.

(** C7: with [runs >= 1] the timed loop records a non-empty list and the
    aggregation of a file cannot fail, so the file is reported; with
    [runs = 0] the list is empty, nothing guards the aggregation, and the
    run stops there with the error of the mean of no data. *)
Theorem aggregation_needs_a_run (env : externals) (a : args) (m : model) (file : string)
    (w : world) :
  file_ok env a m file = true ->
  ((1 <= runs a)%Z ->
     recorded_timings env (ticks w) (Z.to_nat (runs a)) <> [] /\
     (forall d, exists st,
         aggregate (recorded_timings env (ticks w) (Z.to_nat (runs a))) d = Ok st) /\
     outcome_of (bench_file env a m file) w = Ok tt) /\
  (runs a = 0%Z ->
     recorded_timings env (ticks w) (Z.to_nat (runs a)) = [] /\
     (forall d, aggregate [] d = Raise StatisticsError) /\
     outcome_of (bench_file env a m file) w = Raise StatisticsError).
Proof.
  intros Hok. split.
  - intros Hruns.
    destruct (recorded_timings_nonempty env (ticks w) (Z.to_nat (runs a))) as (x & rest & Hrec); [lia|].
    rewrite Hrec. split; [discriminate|]. split.
    + intros d. apply aggregate_total.
    + unfold outcome_of. now rewrite bench_file_completes.
  - intros Hruns. rewrite Hruns. split; [reflexivity|]. split; [reflexivity|].
    unfold outcome_of. rewrite bench_file_no_runs; [reflexivity | assumption | lia].
Qed.

Lemma aggregation_needs_a_run_witness :
  outcome_of (bench_file (Mock.env []) Mock.args_three_runs (ModelHandle 0) "a.wav")
    Mock.fresh = Ok tt /\
  outcome_of (bench_file (Mock.env []) Mock.args_no_runs (ModelHandle 0) "a.wav")
    Mock.fresh = Raise StatisticsError.
Proof.
  split.
  - apply (aggregation_needs_a_run (Mock.env []) Mock.args_three_runs (ModelHandle 0)
             "a.wav" Mock.fresh eq_refl). cbn. lia.
  - apply (aggregation_needs_a_run (Mock.env []) Mock.args_no_runs (ModelHandle 0)
             "a.wav" Mock.fresh eq_refl). reflexivity.
Defined.

(** C8 as stated fails: with [--onnx] off, [--opset 16] and [--opset 15]
    make different load calls. *)
Lemma opset_changes_the_load_call :
  onnx (default_args ["a.wav"]) = false /\
  onnx (with_opset 15 (default_args ["a.wav"])) = false /\
  events_of (main (Mock.env []) (default_args ["a.wav"])) Mock.fresh
  <> events_of (main (Mock.env []) (with_opset 15 (default_args ["a.wav"]))) Mock.fresh.
Proof.
  split; [reflexivity|]. split; [reflexivity|].
  intros H. apply (f_equal (fun evs => head evs)) in H.
  vm_compute in H. discriminate H.
Qed.

(** C8, amended: the opset value reaches the load call verbatim whether or
    not [--onnx] is set; of two configurations that differ only in it, the
    load calls differ in that argument and, when the loader answers both
    alike, the result, the world and every later event are the same. *)
Theorem opset_reaches_only_the_loader (env : externals) (a : args) (o : Z) (w : world) :
  (exists rest,
      events_of (main env a) w
      = LoadModel [("onnx", PyBool (onnx a)); ("opset_version", PyInt (opset a))] :: rest) /\
  (load_silero_vad env (load_kwargs (with_opset o a)) = load_silero_vad env (load_kwargs a) ->
   outcome_of (main env (with_opset o a)) w = outcome_of (main env a) w /\
   world_after (main env (with_opset o a)) w = world_after (main env a) w /\
   tail (events_of (main env (with_opset o a)) w) = tail (events_of (main env a) w)).
Proof.
  split.
  - unfold events_of, main, bind. rewrite run_call_load.
    destruct (load_silero_vad env (load_kwargs a)) as [m|e].
    + destruct (for_each (audio a) (bench_file env a m) w) as [[r w'] evs]. cbn. eauto.
    + cbn. eauto.
  - intros Hsame. unfold outcome_of, world_after, events_of, main, bind.
    rewrite !run_call_load, Hsame.
    destruct (load_silero_vad env (load_kwargs a)) as [m|e]; [|now cbn].
    cbn [audio with_opset].
    rewrite (for_each_ext (audio a) (bench_file env (with_opset o a) m) (bench_file env a m))
      by (intros; apply bench_file_opset).
    destruct (for_each (audio a) (bench_file env a m) w) as [[r w'] evs]. now cbn.
Qed.

Lemma opset_reaches_only_the_loader_witness :
  outcome_of (main (Mock.env []) (with_opset 15 Mock.args_three_runs)) Mock.fresh
  = outcome_of (main (Mock.env []) Mock.args_three_runs) Mock.fresh /\
  world_after (main (Mock.env []) (with_opset 15 Mock.args_three_runs)) Mock.fresh
  = world_after (main (Mock.env []) Mock.args_three_runs) Mock.fresh /\
  tail (events_of (main (Mock.env []) (with_opset 15 Mock.args_three_runs)) Mock.fresh)
  = tail (events_of (main (Mock.env []) Mock.args_three_runs) Mock.fresh).
Proof.
  apply (opset_reaches_only_the_loader (Mock.env []) Mock.args_three_runs 15 Mock.fresh).
  reflexivity.
Defined.

End BenchClaims.

(** ** Part XI. The snapshot test: proofs *)

Module SnapshotProofs.
Import Py Runtime Effects Snapshots BenchSpec SnapshotSpec FloatFacts MonadFacts.
Local Open Scope nat_scope.
Local Open Scope list_scope.

Lemma path_parent_join (d : path) (name : string) : path_parent (path_join d name) = d.
Proof. unfold path_parent, path_join. apply removelast_last. Qed.

Lemma path_join_ne (d : path) (name : string) : path_join d name <> d.
Proof.
  unfold path_join. intros H. apply (f_equal (@length string)) in H.
  rewrite length_app in H. cbn in H. lia.
Qed.

Lemma run_mkdir_dir (p : path) (w : world) :
  fs w !! p = Some Dir -> path_mkdir_exist_ok p w = (Ok tt, w, [Mkdir p]).
Proof. intros H. unfold path_mkdir_exist_ok, bind, emit, step. now rewrite H. Qed.

Lemma run_mkdir_sane (env : externals) (w : world) (name : string) :
  sane env w name = true ->
  path_mkdir_exist_ok (SNAPSHOT_DIR env) w
  = (Ok tt, after_mkdir env w, [Mkdir (SNAPSHOT_DIR env)]).
Proof.
  unfold sane, after_mkdir. intros H.
  destruct (fs w !! tests_dir env) as [[|]|] eqn:Ht; try discriminate.
  unfold path_mkdir_exist_ok, bind, emit, step.
  destruct (fs w !! SNAPSHOT_DIR env) as [[|]|] eqn:Hd; try discriminate; [reflexivity|].
  unfold SNAPSHOT_DIR at 1. rewrite path_parent_join, Ht. reflexivity.
Qed.

Lemma after_mkdir_dir (env : externals) (w : world) (name : string) :
  sane env w name = true -> fs (after_mkdir env w) !! SNAPSHOT_DIR env = Some Dir.
Proof.
  unfold sane, after_mkdir. intros H.
  destruct (fs w !! tests_dir env) as [[|]|]; try discriminate.
  destruct (fs w !! SNAPSHOT_DIR env) as [[|]|] eqn:Hd; try discriminate; [assumption|].
  cbn. apply lookup_insert_eq.
Qed.

Lemma after_mkdir_other (env : externals) (w : world) (p : path) :
  p <> SNAPSHOT_DIR env -> fs (after_mkdir env w) !! p = fs w !! p.
Proof.
  intros Hne. unfold after_mkdir.
  destruct (fs w !! SNAPSHOT_DIR env); [reflexivity|].
  cbn. now apply lookup_insert_ne.
Qed.

Lemma run_exists (p : path) (w : world) :
  path_exists p w = (Ok (bool_decide (is_Some (fs w !! p))), w, [Exists p]).
Proof. reflexivity. Qed.

Lemma run_read_file (p : path) (w : world) (content : string) :
  fs w !! p = Some (File content) -> path_read_text p w = (Ok content, w, [OpenRead p]).
Proof. intros H. unfold path_read_text, bind, emit, step. now rewrite H. Qed.

Lemma run_write_new (p : path) (content : string) (w : world) :
  fs w !! p <> Some Dir -> fs w !! path_parent p = Some Dir ->
  path_write_text p content w
  = (Ok tt, set_fs (<[p := File content]> (fs w)) w, [OpenWrite p content]).
Proof.
  intros Hp Hparent. unfold path_write_text, bind, emit, step. rewrite Hparent.
  destruct (fs w !! p) as [[|]|]; try reflexivity. congruence.
Qed.

(** The check on a missing snapshot file. *)
Lemma write_or_assert_absent (env : externals) (w : world) (name : string) (data : pyvalue) :
  let p := path_join (SNAPSHOT_DIR env) name in
  let text := json_dumps env data dump_kwargs in
  sane env w name = true ->
  fs w !! p = None ->
  _write_or_assert env p data w
  = (Raise (PytestFailed (created_message p)),
     set_fs (<[p := File text]> (fs (after_mkdir env w))) (after_mkdir env w),
     [Mkdir (SNAPSHOT_DIR env); Exists p; OpenWrite p text]).
Proof.
  intros p text Hsane Habsent.
  assert (Hp1 : fs (after_mkdir env w) !! p = None)
    by (rewrite after_mkdir_other; [assumption | apply path_join_ne]).
  pose proof (run_mkdir_sane env w name Hsane) as Hmkdir.
  pose proof (run_exists p (after_mkdir env w)) as Hexists.
  rewrite Hp1, bool_decide_eq_false_2 in Hexists by (intros [? ?]; discriminate).
  assert (Hwrite : path_write_text p text (after_mkdir env w)
                   = (Ok tt, set_fs (<[p := File text]> (fs (after_mkdir env w)))
                               (after_mkdir env w), [OpenWrite p text])).
  { apply run_write_new.
    - rewrite Hp1. discriminate.
    - unfold p. rewrite path_parent_join. apply (after_mkdir_dir env w name Hsane). }
  unfold _write_or_assert, bind. fold p. fold text.
  rewrite Hmkdir. cbv beta iota. rewrite Hexists. cbv beta iota.
  rewrite Hwrite. reflexivity.
Qed.

(** The check against a snapshot file that is there. *)
Lemma write_or_assert_present (env : externals) (w : world) (name : string) (data : pyvalue)
    (content : string) :
  let p := path_join (SNAPSHOT_DIR env) name in
  sane env w name = true ->
  fs w !! p = Some (File content) ->
  _write_or_assert env p data w
  = (match json_loads env content with
     | Ok expected => if py_eq data expected then Ok tt else Raise AssertionError
     | Raise e => Raise e
     end,
     after_mkdir env w,
     [Mkdir (SNAPSHOT_DIR env); Exists p; OpenRead p]).
Proof.
  intros p Hsane Hpresent.
  assert (Hp1 : fs (after_mkdir env w) !! p = Some (File content))
    by (rewrite after_mkdir_other; [assumption | apply path_join_ne]).
  pose proof (run_mkdir_sane env w name Hsane) as Hmkdir.
  pose proof (run_exists p (after_mkdir env w)) as Hexists.
  rewrite Hp1, bool_decide_eq_true_2 in Hexists by eauto.
  pose proof (run_read_file p (after_mkdir env w) content Hp1) as Hread.
  unfold _write_or_assert, bind. fold p.
  rewrite Hmkdir. cbv beta iota. rewrite Hexists. cbv beta iota.
  rewrite Hread. cbv beta iota. unfold lift.
  destruct (json_loads env content) as [expected|e]; [destruct (py_eq data expected)|];
    reflexivity.
Qed.

Lemma sane_inv (env : externals) (w : world) (name : string) :
  sane env w name = true ->
  fs w !! tests_dir env = Some Dir /\
  (fs w !! SNAPSHOT_DIR env = None \/ fs w !! SNAPSHOT_DIR env = Some Dir) /\
  (fs w !! path_join (SNAPSHOT_DIR env) name = None \/
   exists content, fs w !! path_join (SNAPSHOT_DIR env) name = Some (File content)).
Proof.
  unfold sane. intros H.
  destruct (fs w !! tests_dir env) as [[|]|]; try discriminate.
  destruct (fs w !! SNAPSHOT_DIR env) as [[|]|]; try discriminate;
    destruct (fs w !! path_join (SNAPSHOT_DIR env) name) as [[|]|]; try discriminate;
    eauto 6.
Qed.

Lemma after_mkdir_idem (env : externals) (w : world) :
  is_Some (fs w !! SNAPSHOT_DIR env) -> after_mkdir env w = w.
Proof. intros [n Hn]. unfold after_mkdir. now rewrite Hn. Qed.

(** The world the first execution leaves is again a sane one. *)
Lemma sane_after_write (env : externals) (w : world) (name : string) (text : string) :
  sane env w name = true ->
  sane env
    (set_fs (<[path_join (SNAPSHOT_DIR env) name := File text]> (fs (after_mkdir env w)))
            (after_mkdir env w)) name = true.
Proof.
  intros Hsane. destruct (sane_inv env w name Hsane) as (Ht & _ & _).
  assert (Hne1 : path_join (SNAPSHOT_DIR env) name <> tests_dir env).
  { unfold SNAPSHOT_DIR, path_join. intros H. apply (f_equal (@length string)) in H.
    rewrite !length_app in H. cbn in H. lia. }
  assert (Hne2 : tests_dir env <> SNAPSHOT_DIR env)
    by (intros H; symmetry in H; revert H; apply path_join_ne).
  unfold sane. cbn [fs set_fs].
  rewrite lookup_insert_ne by assumption.
  rewrite after_mkdir_other by assumption. rewrite Ht.
  rewrite lookup_insert_ne by apply path_join_ne.
  rewrite (after_mkdir_dir env w name Hsane).
  now rewrite lookup_insert_eq.
Qed.

(** *** The check in any world, for any snapshot path *)

Lemma run_mkdir_cases (p : path) (w : world) :
  exists r w1,
    path_mkdir_exist_ok p w = (r, w1, [Mkdir p]) /\
    ((w1 = w /\ (r = Ok tt -> fs w !! p = Some Dir)) \/
     (r = Ok tt /\ fs w !! p = None /\ w1 = set_fs (<[p := Dir]> (fs w)) w)).
Proof.
  unfold path_mkdir_exist_ok, bind, emit, step.
  destruct (fs w !! p) as [[|]|] eqn:Hp.
  - eexists _, _. split; [reflexivity|]. left. auto.
  - eexists _, _. split; [reflexivity|]. left. split; [reflexivity | discriminate].
  - destruct (fs w !! path_parent p) as [[|]|].
    + eexists _, _. split; [reflexivity|]. right. auto.
    + eexists _, _. split; [reflexivity|]. left. split; [reflexivity | discriminate].
    + eexists _, _. split; [reflexivity|]. left. split; [reflexivity | discriminate].
Qed.

Lemma run_read_cases (p : path) (w : world) :
  exists r, path_read_text p w = (r, w, [OpenRead p]).
Proof.
  unfold path_read_text, bind, emit, step.
  destruct (fs w !! p) as [[|]|]; eauto.
Qed.

Lemma run_write_cases (p : path) (content : string) (w : world) :
  exists r w1,
    path_write_text p content w = (r, w1, [OpenWrite p content]) /\
    forall q, q <> p -> fs w1 !! q = fs w !! q.
Proof.
  unfold path_write_text, bind, emit, step.
  destruct (fs w !! p) as [[|]|]; [eauto| |];
    (destruct (fs w !! path_parent p) as [[|]|]; [|eauto|eauto];
     eexists _, _; (split; [reflexivity|]); intros q Hq; cbn; now apply lookup_insert_ne).
Qed.

(** A comparison run: the file is there, nothing writes, the file stays. *)
Lemma write_or_assert_compares (env : externals) (p : path) (data : pyvalue) (w : world) :
  is_Some (fs w !! p) ->
  exists r w1,
    fs w1 !! p = fs w !! p /\
    (_write_or_assert env p data w = (r, w1, [Mkdir (SNAPSHOT_DIR env)]) \/
     _write_or_assert env p data w
     = (r, w1, [Mkdir (SNAPSHOT_DIR env); Exists p; OpenRead p])).
Proof.
  intros Hsome. unfold _write_or_assert, bind.
  destruct (run_mkdir_cases (SNAPSHOT_DIR env) w) as (r0 & w1 & Hmkdir & Hw1). rewrite Hmkdir.
  assert (Hp1 : fs w1 !! p = fs w !! p).
  { destruct Hw1 as [[-> _] | (_ & Hnone & ->)]; [reflexivity|].
    cbn. apply lookup_insert_ne. intros <-. rewrite Hnone in Hsome. now destruct Hsome. }
  destruct r0 as [[]|e]; [|eauto].
  rewrite run_exists, Hp1, bool_decide_eq_true_2 by assumption.
  destruct (run_read_cases p w1) as (r1 & Hread). rewrite Hread.
  destruct r1 as [text|e]; [|eauto].
  unfold lift. destruct (json_loads env text) as [expected|e]; [|eauto].
  destruct (py_eq data expected); eauto.
Qed.

(** Whatever the world, the check does one of three things. *)
Lemma write_or_assert_events (env : externals) (p : path) (data : pyvalue) (w : world) :
  exists r w1 evs,
    _write_or_assert env p data w = (r, w1, evs) /\
    (evs = [Mkdir (SNAPSHOT_DIR env)] \/
     evs = [Mkdir (SNAPSHOT_DIR env); Exists p; OpenRead p] \/
     (evs = [Mkdir (SNAPSHOT_DIR env); Exists p;
             OpenWrite p (json_dumps env data dump_kwargs)] /\
      fs w !! p = None)).
Proof.
  unfold _write_or_assert, bind.
  destruct (run_mkdir_cases (SNAPSHOT_DIR env) w) as (r0 & w1 & Hmkdir & Hw1). rewrite Hmkdir.
  destruct r0 as [[]|e]; [|eauto 6].
  rewrite run_exists.
  destruct (bool_decide (is_Some (fs w1 !! p))) eqn:Hex.
  - destruct (run_read_cases p w1) as (r1 & Hread). rewrite Hread.
    destruct r1 as [text|e]; [|eauto 7].
    unfold lift. destruct (json_loads env text) as [expected|e]; [|eauto 7].
    destruct (py_eq data expected); eauto 7.
  - apply bool_decide_eq_false_1 in Hex.
    assert (Hnone : fs w !! p = None).
    { destruct (fs w1 !! p) eqn:Hp1; [exfalso; apply Hex; eauto|].
      destruct Hw1 as [[-> _] | (_ & HD & ->)]; [assumption|].
      cbn in Hp1. destruct (decide (SNAPSHOT_DIR env = p)) as [<-|Hne].
      - now rewrite lookup_insert_eq in Hp1.
      - now rewrite lookup_insert_ne in Hp1. }
    destruct (run_write_cases p (json_dumps env data dump_kwargs) w1) as (r1 & w2 & Hwrite & _).
    rewrite Hwrite. destruct r1 as [[]|e]; eauto 8.
Qed.

(** After the check the snapshot directory is there, whichever branch ran. *)
Lemma write_or_assert_makes_dir (env : externals) (p : path) (data : pyvalue) (w : world) :
  fs w !! tests_dir env = Some Dir ->
  (forall content, fs w !! SNAPSHOT_DIR env <> Some (File content)) ->
  fs (world_after (_write_or_assert env p data) w) !! SNAPSHOT_DIR env = Some Dir.
Proof.
  intros Htests Hnofile. unfold world_after, _write_or_assert, bind.
  assert (Hmkdir : exists w1, path_mkdir_exist_ok (SNAPSHOT_DIR env) w
                              = (Ok tt, w1, [Mkdir (SNAPSHOT_DIR env)]) /\
                              fs w1 !! SNAPSHOT_DIR env = Some Dir).
  { unfold path_mkdir_exist_ok, bind, emit, step.
    destruct (fs w !! SNAPSHOT_DIR env) as [[|content]|] eqn:HD.
    - eauto.
    - now destruct (Hnofile content).
    - unfold SNAPSHOT_DIR at 1. rewrite path_parent_join, Htests.
      eexists. split; [reflexivity|]. cbn. apply lookup_insert_eq. }
  destruct Hmkdir as (w1 & -> & HD1). rewrite run_exists.
  destruct (bool_decide (is_Some (fs w1 !! p))) eqn:Hex.
  - destruct (run_read_cases p w1) as (r1 & ->).
    destruct r1 as [text|e]; [|assumption].
    unfold lift. destruct (json_loads env text) as [expected|e]; [|assumption].
    destruct (py_eq data expected); assumption.
  - apply bool_decide_eq_false_1 in Hex.
    destruct (run_write_cases p (json_dumps env data dump_kwargs) w1) as (r1 & w2 & -> & Hkeep).
    assert (Hne : SNAPSHOT_DIR env <> p) by (intros <-; apply Hex; eauto).
    destruct r1 as [[]|e]; cbn [fst snd]; now rewrite Hkeep.
Qed.

(** *** What [_compute_snapshot] builds *)

Lemma compute_loop_entries (env : externals) (m : model) (sampling_rate : Z)
    (segs : string -> list segment) (sample_paths : list string) :
  Forall (detects env m sampling_rate segs) sample_paths ->
  forall (results : list pyvalue) (w : world),
    outcome_of (compute_loop env m sample_paths sampling_rate results) w
    = Ok (results
          ++ map entry_to_py
               (record_snapshots (built_record "" sampling_rate sample_paths segs))).
Proof.
  induction 1 as [|sample rest (samples & Hread & Hdet) _ IH]; intros results w.
  - cbn. now rewrite app_nil_r.
  - cbn [compute_loop]. unfold outcome_of in *.
    erewrite bind_ok; [|rewrite run_call_read_audio, Hread; reflexivity].
    erewrite bind_ok; [|rewrite run_call_detect, Hdet; reflexivity].
    specialize (IH (results ++ [snapshot_entry sample sampling_rate
                                  (PyList (map segment_to_py (segs sample)))]) w).
    destruct (compute_loop env m rest sampling_rate _ w) as [[r w'] evs].
    cbn [fst] in *. rewrite IH. cbn [built_record record_snapshots map].
    now rewrite <- app_assoc.
Qed.

Lemma compute_snapshot_record (env : externals) (m : model) (name : string)
    (sampling_rate : Z) (segs : string -> list segment) (sample_paths : list string)
    (w : world) :
  Forall (detects env m sampling_rate segs) sample_paths ->
  exists snaps,
    outcome_of (_compute_snapshot env m sample_paths sampling_rate) w = Ok snaps /\
    PyDict [("model", PyStr name); ("snapshots", snaps)]
    = record_to_py (built_record name sampling_rate sample_paths segs).
Proof.
  intros Hdet. pose proof (compute_loop_entries env m sampling_rate segs sample_paths Hdet [] w) as H.
  unfold _compute_snapshot, outcome_of, bind in *.
  destruct (compute_loop env m sample_paths sampling_rate [] w) as [[r w'] evs].
  cbn [fst] in H. subst r. cbn. eauto.
Qed.

(** *** Equality of Snapshot Records *)

Lemma py_eq_list_nil_l (ys : list pyvalue) :
  py_eq (PyList []) (PyList ys) = match ys with [] => true | _ => false end.
Proof. now destruct ys. Qed.

Lemma py_eq_list_cons (x : pyvalue) (xs ys : list pyvalue) :
  py_eq (PyList (x :: xs)) (PyList ys)
  = match ys with
    | [] => false
    | y :: ys' => py_eq x y && py_eq (PyList xs) (PyList ys')
    end.
Proof. now destruct ys. Qed.

Lemma py_eq_map_Forall2 {A} (f : A -> pyvalue) (same : A -> A -> Prop) (xs ys : list A) :
  (forall x y, py_eq (f x) (f y) = true <-> same x y) ->
  py_eq (PyList (map f xs)) (PyList (map f ys)) = true <-> Forall2 same xs ys.
Proof.
  intros Hf. revert ys. induction xs as [|x xs IH]; intros ys.
  - rewrite py_eq_list_nil_l. destruct ys; cbn [map]; split; intros H;
      try constructor; try discriminate; inversion H.
  - cbn [map]. rewrite py_eq_list_cons. destruct ys as [|y ys]; cbn [map].
    + split; intros H; [discriminate | inversion H].
    + rewrite andb_true_iff, Hf, IH. split.
      * intros [? ?]. now constructor.
      * intros H. inversion H; subst. auto.
Qed.

Lemma py_eq_segment (s t : segment) :
  py_eq (segment_to_py s) (segment_to_py t) = true <-> same_segment s t.
Proof.
  unfold segment_to_py, same_segment. cbn.
  rewrite !andb_true_iff. tauto.
Qed.

Lemma py_eq_entry (e f : entry) :
  py_eq (entry_to_py e) (entry_to_py f) = true <-> same_entry e f.
Proof.
  unfold entry_to_py, same_entry.
  change (py_eq (PyDict [("file", PyStr (entry_file e));
                         ("sampling_rate", PyInt (entry_rate e));
                         ("speech_timestamps", PyList (map segment_to_py (entry_timestamps e)))])
                (PyDict [("file", PyStr (entry_file f));
                         ("sampling_rate", PyInt (entry_rate f));
                         ("speech_timestamps", PyList (map segment_to_py (entry_timestamps f)))]))
    with (String.eqb (entry_file e) (entry_file f)
          && ((entry_rate e =? entry_rate f)%Z
              && (py_eq (PyList (map segment_to_py (entry_timestamps e)))
                        (PyList (map segment_to_py (entry_timestamps f))) && true))).
  rewrite !andb_true_iff, String.eqb_eq, Z.eqb_eq.
  rewrite (py_eq_map_Forall2 segment_to_py same_segment) by apply py_eq_segment.
  tauto.
Qed.

Lemma py_eq_record (r s : snapshot_record) :
  py_eq (record_to_py r) (record_to_py s) = true <-> same_record r s.
Proof.
  unfold record_to_py, same_record.
  change (py_eq (PyDict [("model", PyStr (record_model r));
                         ("snapshots", PyList (map entry_to_py (record_snapshots r)))])
                (PyDict [("model", PyStr (record_model s));
                         ("snapshots", PyList (map entry_to_py (record_snapshots s)))]))
    with (String.eqb (record_model r) (record_model s)
          && (py_eq (PyList (map entry_to_py (record_snapshots r)))
                    (PyList (map entry_to_py (record_snapshots s))) && true)).
  rewrite !andb_true_iff, String.eqb_eq.
  rewrite (py_eq_map_Forall2 entry_to_py same_entry) by apply py_eq_entry.
  tauto.
Qed.

End SnapshotProofs.

(** ** Part XII. The snapshot test: the claims *)

Module SnapshotClaims.
Import Py Runtime Effects Snapshots BenchSpec SnapshotSpec FloatFacts MonadFacts SnapshotProofs.
Local Open Scope nat_scope.
Local Open Scope list_scope.

(** C3: in a sane test directory the check fails exactly when the snapshot
    file is missing, in which case the serialized record has been written
    before the failure is signalled, or when it is there and does not
    deserialize to a value equal to the computed record; it passes exactly
    when the file is there and deserializes to an equal value. *)
Theorem snapshot_check_fails_iff (env : externals) (w : world) (name : string)
    (data : pyvalue) :
  let p := path_join (SNAPSHOT_DIR env) name in
  let check := _write_or_assert env p data in
  sane env w name = true ->
  (outcome_of check w <> Ok tt <->
     fs w !! p = None \/
     exists content,
       fs w !! p = Some (File content) /\
       ~ exists expected,
           json_loads env content = Ok expected /\ py_eq data expected = true) /\
  (outcome_of check w = Ok tt <->
     exists content expected,
       fs w !! p = Some (File content) /\
       json_loads env content = Ok expected /\ py_eq data expected = true) /\
  (fs w !! p = None ->
     outcome_of check w = Raise (PytestFailed (created_message p)) /\
     fs (world_after check w) !! p = Some (File (json_dumps env data dump_kwargs)) /\
     events_of check w
     = [Mkdir (SNAPSHOT_DIR env); Exists p; OpenWrite p (json_dumps env data dump_kwargs)]).
Proof.
  intros p check Hsane. subst check p. unfold outcome_of, world_after, events_of.
  destruct (sane_inv env w name Hsane) as (_ & _ & [Habsent | [content Hpresent]]).
  - rewrite (write_or_assert_absent env w name data Hsane Habsent). cbn [fst snd].
    split; [|split].
    + split; [intros _; now left | discriminate].
    + split; [discriminate | intros (c & e & Hc & _); congruence].
    + intros _. split; [reflexivity|]. split; [|reflexivity].
      cbn [fs set_fs]. apply lookup_insert_eq.
  - rewrite (write_or_assert_present env w name data content Hsane Hpresent).
    cbn [fst snd]. split; [|split].
    + split.
      * intros Hfail. right. exists content. split; [assumption|].
        intros (expected & Hload & Heq). rewrite Hload, Heq in Hfail. congruence.
      * intros [Hnone | (c & Hc & Hno)]; [congruence|].
        assert (c = content) as -> by congruence.
        destruct (json_loads env content) as [expected|e]; [|discriminate].
        destruct (py_eq data expected) eqn:Heq; [|discriminate].
        exfalso. apply Hno. eauto.
    + split.
      * intros Hpass. exists content.
        destruct (json_loads env content) as [expected|e]; [|discriminate].
        destruct (py_eq data expected) eqn:Heq; [|discriminate]. eauto.
      * intros (c & expected & Hc & Hload & Heq).
        assert (c = content) as -> by congruence. now rewrite Hload, Heq.
    + congruence.
Qed.

Lemma snapshot_check_fails_iff_witness :
  outcome_of (_write_or_assert (Mock.env []) (path_join (SNAPSHOT_DIR (Mock.env [])) "jit.json")
                (record_to_py Mock.record)) Mock.fresh
  = Raise (PytestFailed
             (created_message (path_join (SNAPSHOT_DIR (Mock.env [])) "jit.json"))) /\
  fs (world_after (_write_or_assert (Mock.env []) (path_join (SNAPSHOT_DIR (Mock.env [])) "jit.json")
                     (record_to_py Mock.record)) Mock.fresh)
    !! path_join (SNAPSHOT_DIR (Mock.env [])) "jit.json"
  = Some (File (json_dumps (Mock.env []) (record_to_py Mock.record) dump_kwargs)) /\
  events_of (_write_or_assert (Mock.env []) (path_join (SNAPSHOT_DIR (Mock.env [])) "jit.json")
               (record_to_py Mock.record)) Mock.fresh
  = [Mkdir (SNAPSHOT_DIR (Mock.env []));
     Exists (path_join (SNAPSHOT_DIR (Mock.env [])) "jit.json");
     OpenWrite (path_join (SNAPSHOT_DIR (Mock.env [])) "jit.json")
       (json_dumps (Mock.env []) (record_to_py Mock.record) dump_kwargs)].
Proof.
  apply (snapshot_check_fails_iff (Mock.env []) Mock.fresh "jit.json" (record_to_py Mock.record));
    reflexivity.
Defined.



(** C10: every invocation of the check starts by making the snapshot
    directory, which is no error and changes nothing when the directory is
    already there and leaves it in place otherwise; when the snapshot file
    exists the check neither writes nor changes it; and the only write the
    check ever performs is to the snapshot path, when that path is absent. *)
Theorem snapshot_check_effects (env : externals) (p : path) (data : pyvalue) (w : world) :
  let check := _write_or_assert env p data in
  (exists rest, events_of check w = Mkdir (SNAPSHOT_DIR env) :: rest) /\
  (fs w !! SNAPSHOT_DIR env = Some Dir ->
     path_mkdir_exist_ok (SNAPSHOT_DIR env) w = (Ok tt, w, [Mkdir (SNAPSHOT_DIR env)])) /\
  (fs w !! tests_dir env = Some Dir ->
     (forall content, fs w !! SNAPSHOT_DIR env <> Some (File content)) ->
     fs (world_after check w) !! SNAPSHOT_DIR env = Some Dir) /\
  (is_Some (fs w !! p) ->
     fs (world_after check w) !! p = fs w !! p /\
     forall q content, ~ In (OpenWrite q content) (events_of check w)) /\
  (forall q content,
     In (OpenWrite q content) (events_of check w) -> q = p /\ fs w !! p = None).
Proof.
  intros check. subst check. unfold events_of, world_after.
  split; [|split; [|split; [|split]]].
  - destruct (write_or_assert_events env p data w) as (r & w1 & evs & -> & [->|[->|[-> _]]]);
      cbn; eauto.
  - apply run_mkdir_dir.
  - apply write_or_assert_makes_dir.
  - intros Hsome.
    destruct (write_or_assert_compares env p data w Hsome) as (r & w1 & Hp & [-> | ->]);
      cbn [fst snd]; (split; [assumption|]); intros q content Hin; cbn in Hin;
      intuition discriminate.
  - intros q content Hin.
    destruct (write_or_assert_events env p data w) as (r & w1 & evs & Heq & Hevs).
    rewrite Heq in Hin. cbn [snd] in Hin.
    destruct Hevs as [->|[->|[-> Hnone]]]; cbn in Hin.
    + intuition discriminate.
    + intuition discriminate.
    + destruct Hin as [|[|[Hw|[]]]]; try discriminate. injection Hw as <- _. auto.
Qed.

(** A comparison run on the world the first execution left. *)
Lemma snapshot_check_effects_witness :
  let env := Mock.env [] in
  let p := path_join (SNAPSHOT_DIR env) "jit.json" in
  let data := record_to_py Mock.record in
  let w1 := world_after (_write_or_assert env p data) Mock.fresh in
  fs (world_after (_write_or_assert env p data) w1) !! p = fs w1 !! p /\
  forall q content, ~ In (OpenWrite q content) (events_of (_write_or_assert env p data) w1).
Proof.
  apply (snapshot_check_effects (Mock.env []) (path_join (SNAPSHOT_DIR (Mock.env [])) "jit.json")
           (record_to_py Mock.record)).
  vm_compute. eauto.
Defined.

(** C4: two Snapshot Records compare equal exactly when they agree leaf by
    leaf, with timestamps compared as numbers and no tolerance; a record
    without NaN equals itself, and changing one [end] timestamp to a
    different number makes the comparison fail. *)
Theorem snapshot_comparison_is_exact :
  (forall r s : snapshot_record,
      py_eq (record_to_py r) (record_to_py s) = true <-> same_record r s) /\
  (forall r : snapshot_record,
      record_ok r -> py_eq (record_to_py r) (record_to_py r) = true) /\
  (forall (r : snapshot_record) (i j : nat) (old x : float),
      end_at i j r = Some old ->
      PrimFloat.eqb old x = false ->
      py_eq (record_to_py r) (record_to_py (set_end i j x r)) = false).
Proof.
  split; [exact py_eq_record|]. split.
  - intros r Hok. apply py_eq_record. split; [reflexivity|].
    apply Forall_Forall2_diag. eapply Forall_impl; [exact Hok|].
    intros e He. split; [reflexivity|]. split; [reflexivity|].
    apply Forall_Forall2_diag. eapply Forall_impl; [exact He|].
    intros sg [Hs He']. unfold is_nan, PrimFloat.is_nan in Hs, He'.
    apply negb_false_iff in Hs, He'. now split.
  - intros r i j old x Hend Hne.
    destruct (py_eq (record_to_py r) (record_to_py (set_end i j x r))) eqn:Heq; [|reflexivity].
    apply py_eq_record in Heq as [_ Hentries]. unfold end_at in Hend.
    destruct (record_snapshots r !! i) as [e|] eqn:He; [|discriminate].
    destruct (entry_timestamps e !! j) as [sg|] eqn:Hsg; [|discriminate].
    injection Hend as <-.
    assert (Hentry : same_entry e (set_entry_end j x e)).
    { eapply Forall2_lookup_lr; [exact Hentries | exact He |].
      cbn [set_end record_snapshots]. now rewrite list_lookup_alter_eq, He. }
    destruct Hentry as (_ & _ & Hsegs).
    assert (Hseg : same_segment sg (set_seg_end x sg)).
    { eapply Forall2_lookup_lr; [exact Hsegs | exact Hsg |].
      cbn [set_entry_end entry_timestamps]. now rewrite list_lookup_alter_eq, Hsg. }
    destruct Hseg as [_ Hsame]. cbn in Hsame. congruence.
Qed.

Lemma snapshot_comparison_is_exact_witness :
  py_eq (record_to_py Mock.record) (record_to_py Mock.record) = true /\
  py_eq (record_to_py Mock.record) (record_to_py (set_end 0 1 3.126%float Mock.record)) = false.
Proof.
  split.
  - apply (proj1 (proj2 snapshot_comparison_is_exact)). repeat constructor.
  - apply (proj2 (proj2 snapshot_comparison_is_exact) Mock.record 0 1 3.125%float);
      reflexivity.
Defined.

End SnapshotClaims.

(** ** Part XIII. Who pins the thread count *)

Module ThreadPin.
Import Py Runtime Effects Bench Snapshots BenchSpec SnapshotSpec MonadFacts.
Local Open Scope nat_scope.
Local Open Scope list_scope.

Lemma no_pin_ret {A} (a : A) : no_pin (ret a).
Proof. intros w. constructor. Qed.

Lemma no_pin_raise {A} (e : exn) : no_pin (@raise A e).
Proof. intros w. constructor. Qed.

Lemma no_pin_lift {A} (r : result A) : no_pin (lift r).
Proof. intros w. constructor. Qed.

Lemma no_pin_step {A} (f : world -> result A * world) : no_pin (step f).
Proof. intros w. unfold events_of, step. destruct (f w). constructor. Qed.

Lemma no_pin_emit (ev : event) : is_pin ev = false -> no_pin (emit ev).
Proof. intros H w. repeat constructor. exact H. Qed.

Lemma no_pin_bind {A B} (c : M A) (k : A -> M B) :
  no_pin c -> (forall a, no_pin (k a)) -> no_pin (bind c k).
Proof.
  intros Hc Hk w. specialize (Hc w). unfold events_of, bind in *.
  destruct (c w) as [[[a|e] w'] evs]; cbn [snd] in *; [|assumption].
  specialize (Hk a w'). unfold events_of in Hk.
  destruct (k a w') as [[r w''] evs']. cbn [snd] in *. now apply Forall_app.
Qed.

Lemma no_pin_for_each {A} (xs : list A) (body : A -> M unit) :
  (forall x, no_pin (body x)) -> no_pin (for_each xs body).
Proof.
  intros H. induction xs as [|x xs IH]; cbn [for_each].
  - apply no_pin_ret.
  - apply no_pin_bind; auto.
Qed.

Lemma no_pin_repeat_n (n : nat) (body : M unit) : no_pin body -> no_pin (repeat_n n body).
Proof.
  intros H. induction n as [|n IH]; cbn [repeat_n].
  - apply no_pin_ret.
  - apply no_pin_bind; auto.
Qed.

Ltac no_pin_step :=
  first
    [ apply no_pin_ret | apply no_pin_raise | apply no_pin_lift | apply no_pin_step
    | apply no_pin_emit; reflexivity
    | apply no_pin_for_each; intros
    | apply no_pin_repeat_n
    | apply no_pin_bind; [|intros] ].

Ltac no_pin_auto := repeat no_pin_step.

Lemma no_pin_call_detect (env : externals) (samples : tensor) (m : model) (kw : kwargs) :
  no_pin (call_detect env samples m kw).
Proof. unfold call_detect. no_pin_auto. Qed.

Lemma no_pin_call_read_audio (env : externals) (file : string) (kw : kwargs) :
  no_pin (call_read_audio env file kw).
Proof. unfold call_read_audio. no_pin_auto. Qed.

Lemma no_pin_call_load (env : externals) (kw : kwargs) : no_pin (call_load env kw).
Proof. unfold call_load. no_pin_auto. Qed.

Lemma no_pin_perf_counter (env : externals) : no_pin (time_perf_counter env).
Proof. unfold time_perf_counter. no_pin_auto. Qed.

Lemma no_pin_timed_runs (env : externals) (a : args) (samples : tensor) (m : model) (n : nat) :
  forall acc, no_pin (timed_runs env a samples m n acc).
Proof.
  induction n as [|n IH]; intros acc; cbn [timed_runs].
  - apply no_pin_ret.
  - apply no_pin_bind; [apply no_pin_perf_counter | intros start].
    apply no_pin_bind; [apply no_pin_call_detect | intros _].
    apply no_pin_bind; [apply no_pin_perf_counter | intros stop]. apply IH.
Qed.

Lemma no_pin_bench_file (env : externals) (a : args) (m : model) (file : string) :
  no_pin (bench_file env a m file).
Proof.
  unfold bench_file.
  apply no_pin_bind; [apply no_pin_call_read_audio | intros samples].
  apply no_pin_bind; [apply no_pin_lift | intros d].
  apply no_pin_bind.
  { apply no_pin_repeat_n. apply no_pin_bind; [apply no_pin_call_detect | intros; apply no_pin_ret]. }
  intros _. apply no_pin_bind; [apply no_pin_timed_runs | intros timings].
  apply no_pin_bind; [apply no_pin_lift | intros st].
  apply no_pin_for_each. intros line. unfold print. no_pin_auto.
Qed.

Lemma no_pin_main (env : externals) (a : args) : no_pin (main env a).
Proof.
  unfold main. apply no_pin_bind; [apply no_pin_call_load | intros m].
  apply no_pin_for_each. intros file. apply no_pin_bench_file.
Qed.

Lemma no_pin_compute_loop (env : externals) (m : model) (sample_paths : list string)
    (sampling_rate : Z) :
  forall results, no_pin (compute_loop env m sample_paths sampling_rate results).
Proof.
  induction sample_paths as [|sample rest IH]; intros results; cbn [compute_loop].
  - apply no_pin_ret.
  - apply no_pin_bind; [apply no_pin_call_read_audio | intros samples].
    apply no_pin_bind; [apply no_pin_call_detect | intros ts]. apply IH.
Qed.

Lemma no_pin_write_or_assert (env : externals) (p : path) (data : pyvalue) :
  no_pin (_write_or_assert env p data).
Proof.
  unfold _write_or_assert, path_mkdir_exist_ok, path_exists.
  apply no_pin_bind; [no_pin_auto | intros _].
  apply no_pin_bind; [no_pin_auto | intros present].
  destruct present.
  - unfold path_read_text. apply no_pin_bind; [no_pin_auto | intros text].
    apply no_pin_bind; [no_pin_auto | intros expected].
    destruct (py_eq data expected); no_pin_auto.
  - unfold path_write_text. no_pin_auto.
Qed.

Lemma no_pin_snapshot_test (env : externals) (kw : kwargs) (name p : string) :
  no_pin (bind (call_load env kw) (fun m =>
          bind (_compute_snapshot env m SAMPLES 16000) (fun snaps =>
          _write_or_assert env (path_join (SNAPSHOT_DIR env) p)
            (PyDict [("model", PyStr name); ("snapshots", snaps)])))).
Proof.
  apply no_pin_bind; [apply no_pin_call_load | intros m].
  apply no_pin_bind; [|intros snaps; apply no_pin_write_or_assert].
  unfold _compute_snapshot.
  apply no_pin_bind; [apply no_pin_compute_loop | intros; apply no_pin_ret].
Qed.

Lemma no_pin_run_test (t : M unit) : no_pin t -> no_pin (run_test t).
Proof.
  intros H w. specialize (H w). unfold events_of, run_test in *.
  now destruct (t w) as [[r w'] evs].
Qed.

Lemma pinned_once_pinned (evs : list event) :
  Forall (fun ev => is_pin ev = false) evs ->
  pinned_at_every_detect (Some 1%Z) evs = true.
Proof.
  induction 1 as [|ev evs Hev _ IH]; [reflexivity|].
  destruct ev; cbn [pinned_at_every_detect]; try assumption. discriminate.
Qed.

Lemma count_none (p : event -> bool) (evs : list event) :
  Forall (fun ev => p ev = false) evs -> count p evs = 0.
Proof.
  unfold count. induction 1 as [|ev evs Hev _ IH]; [reflexivity|].
  cbn. now rewrite Hev.
Qed.

(** C9 as stated fails for the Benchmark Runner: its detection calls are
    made with no thread pin set by the tool. *)
Lemma benchmark_detects_unpinned :
  pinned_at_every_detect None
    (events_of (main (Mock.env []) (default_args ["a.wav"])) Mock.fresh) = false.
Proof. vm_compute. reflexivity. Qed.

(** C9, amended: in the Snapshot Regression Tool the pin to one thread is
    the first thing the test module does, so every detection call of the
    test session is made under it; the Benchmark Runner never sets the
    thread count. *)
Theorem thread_pin_only_in_the_snapshot_tool :
  (forall (env : externals) (w : world),
      head (events_of (pytest_session env) w) = Some (SetNumThreads 1) /\
      pinned_at_every_detect None (events_of (pytest_session env) w) = true) /\
  (forall (env : externals) (a : args) (w : world),
      count is_pin (events_of (main env a) w) = 0).
Proof.
  split.
  - intros env w.
    assert (Hrest : no_pin (bind (run_test (test_jit_snapshot env)) (fun jit =>
                            bind (run_test (test_onnx_snapshot env)) (fun onnx =>
                            ret [jit; onnx])))).
    { apply no_pin_bind; [apply no_pin_run_test, no_pin_snapshot_test | intros jit].
      apply no_pin_bind; [apply no_pin_run_test, no_pin_snapshot_test | intros onnx].
      apply no_pin_ret. }
    specialize (Hrest w). unfold events_of in *.
    unfold pytest_session.
    rewrite (bind_ok module_body _ w w tt [SetNumThreads 1] eq_refl).
    destruct (bind (run_test (test_jit_snapshot env)) _ w) as [[r w'] evs].
    cbn [snd app head pinned_at_every_detect] in *.
    split; [reflexivity | now apply pinned_once_pinned].
  - intros env a w. apply count_none. apply no_pin_main.
Qed.

End ThreadPin.

(** ** Part XIV. Footprints: what each tool touches *)

Module FootprintProofs.
Import Py Runtime Effects Bench Snapshots BenchSpec SnapshotSpec Footprint MonadFacts.
Local Open Scope nat_scope.
Local Open Scope list_scope.

Section Confined.
Variable allowed : event -> bool.
Variable owned : path -> Prop.
Variable timed : bool.

Lemma confined_ret {A} (a : A) : confined allowed owned timed (ret a).
Proof. intros w. split; [constructor | split; auto]. Qed.

Lemma confined_raise {A} (e : exn) : confined allowed owned timed (@raise A e).
Proof. intros w. split; [constructor | split; auto]. Qed.

Lemma confined_lift {A} (r : result A) : confined allowed owned timed (lift r).
Proof. intros w. split; [constructor | split; auto]. Qed.

Lemma confined_emit (ev : event) :
  allowed ev = true -> confined allowed owned timed (emit ev).
Proof. intros H w. split; [repeat constructor; exact H | split; auto]. Qed.

Lemma confined_bind {A B} (c : M A) (k : A -> M B) :
  confined allowed owned timed c ->
  (forall a, confined allowed owned timed (k a)) ->
  confined allowed owned timed (bind c k).
Proof.
  intros Hc Hk w. destruct (Hc w) as (Hev & Hfs & Htk).
  unfold events_of, world_after, bind in *.
  destruct (c w) as [[[a|e] w1] evs]; cbn [fst snd] in *; [|auto].
  destruct (Hk a w1) as (Hev' & Hfs' & Htk'). unfold events_of, world_after in *.
  destruct (k a w1) as [[r w2] evs']; cbn [fst snd] in *.
  split; [now apply Forall_app|]. split.
  - intros q Hq. rewrite Hfs', Hfs; auto.
  - intros Ht. rewrite Htk', Htk; auto.
Qed.

Lemma confined_for_each {A} (xs : list A) (body : A -> M unit) :
  (forall x, confined allowed owned timed (body x)) ->
  confined allowed owned timed (for_each xs body).
Proof.
  intros H. induction xs as [|x xs IH]; cbn [for_each].
  - apply confined_ret.
  - apply confined_bind; auto.
Qed.

Lemma confined_repeat_n (n : nat) (body : M unit) :
  confined allowed owned timed body -> confined allowed owned timed (repeat_n n body).
Proof.
  intros H. induction n as [|n IH]; cbn [repeat_n].
  - apply confined_ret.
  - apply confined_bind; auto.
Qed.

Lemma confined_run_test (t : M unit) :
  confined allowed owned timed t -> confined allowed owned timed (run_test t).
Proof.
  intros H w. specialize (H w). unfold events_of, world_after, run_test in *.
  now destruct (t w) as [[r w'] evs].
Qed.

Lemma confined_call_load (env : externals) (kw : kwargs) :
  allowed (LoadModel kw) = true -> confined allowed owned timed (call_load env kw).
Proof.
  intros H. unfold call_load. apply confined_bind; [now apply confined_emit|].
  intros _. apply confined_lift.
Qed.

Lemma confined_call_read_audio (env : externals) (file : string) (kw : kwargs) :
  allowed (ReadAudio file kw) = true ->
  confined allowed owned timed (call_read_audio env file kw).
Proof.
  intros H. unfold call_read_audio. apply confined_bind; [now apply confined_emit|].
  intros _. apply confined_lift.
Qed.

Lemma confined_call_detect (env : externals) (samples : tensor) (m : model) (kw : kwargs) :
  allowed (Detect samples m kw) = true ->
  confined allowed owned timed (call_detect env samples m kw).
Proof.
  intros H. unfold call_detect. apply confined_bind; [now apply confined_emit|].
  intros _. apply confined_lift.
Qed.

Lemma confined_perf_counter (env : externals) :
  allowed PerfCounter = true -> timed = true ->
  confined allowed owned timed (time_perf_counter env).
Proof.
  intros H Ht w. split; [|split].
  - repeat constructor. exact H.
  - reflexivity.
  - rewrite Ht. discriminate.
Qed.

Lemma confined_mkdir (p : path) :
  allowed (Mkdir p) = true -> owned p -> confined allowed owned timed (path_mkdir_exist_ok p).
Proof.
  intros H Hp w. unfold events_of, world_after, path_mkdir_exist_ok, bind, emit, step.
  destruct (fs w !! p) as [[|]|]; [| |destruct (fs w !! path_parent p) as [[|]|]];
    cbn; (split; [repeat constructor; exact H|]); (split; [|reflexivity]);
    intros q Hq; try reflexivity.
  apply lookup_insert_ne. intros <-. now apply Hq.
Qed.

Lemma confined_exists (p : path) :
  allowed (Exists p) = true -> confined allowed owned timed (path_exists p).
Proof. intros H w. split; [repeat constructor; exact H | split; reflexivity]. Qed.

Lemma confined_read_text (p : path) :
  allowed (OpenRead p) = true -> confined allowed owned timed (path_read_text p).
Proof.
  intros H w. unfold events_of, world_after, path_read_text, bind, emit, step.
  destruct (fs w !! p) as [[|]|]; cbn;
    (split; [repeat constructor; exact H | split; reflexivity]).
Qed.

Lemma confined_write_text (p : path) (content : string) :
  allowed (OpenWrite p content) = true -> owned p ->
  confined allowed owned timed (path_write_text p content).
Proof.
  intros H Hp w. unfold events_of, world_after, path_write_text, bind, emit, step.
  destruct (fs w !! p) as [[|]|]; [|destruct (fs w !! path_parent p) as [[|]|]
                                   |destruct (fs w !! path_parent p) as [[|]|]];
    cbn; (split; [repeat constructor; exact H|]); (split; [|reflexivity]);
    intros q Hq; try reflexivity;
    apply lookup_insert_ne; intros <-; now apply Hq.
Qed.

End Confined.

Lemma confined_weaken {A} (allowed allowed' : event -> bool) (owned owned' : path -> Prop)
    (timed timed' : bool) (c : M A) :
  (forall ev, allowed ev = true -> allowed' ev = true) ->
  (forall q, owned q -> owned' q) ->
  (timed' = false -> timed = false) ->
  confined allowed owned timed c -> confined allowed' owned' timed' c.
Proof.
  intros Hev Hown Ht Hc w. destruct (Hc w) as (H1 & H2 & H3).
  split; [|split].
  - eapply Forall_impl; [exact H1 | exact Hev].
  - intros q Hq. apply H2. intros Ho. apply Hq, Hown, Ho.
  - intros Hf. apply H3, Ht, Hf.
Qed.

(** *** The benchmark *)

Lemma confined_timed_runs (env : externals) (a : args) (samples : tensor) (m : model) (n : nat) :
  forall acc, confined bench_event nowhere true (timed_runs env a samples m n acc).
Proof.
  induction n as [|n IH]; intros acc; cbn [timed_runs].
  - apply confined_ret.
  - apply confined_bind; [now apply confined_perf_counter | intros start].
    apply confined_bind; [now apply confined_call_detect | intros _].
    apply confined_bind; [now apply confined_perf_counter | intros stop]. apply IH.
Qed.

Lemma confined_bench_file (env : externals) (a : args) (m : model) (file : string) :
  confined bench_event nowhere true (bench_file env a m file).
Proof.
  unfold bench_file.
  apply confined_bind; [now apply confined_call_read_audio | intros samples].
  apply confined_bind; [apply confined_lift | intros d].
  apply confined_bind.
  { apply confined_repeat_n.
    apply confined_bind; [now apply confined_call_detect | intros; apply confined_ret]. }
  intros _. apply confined_bind; [apply confined_timed_runs | intros timings].
  apply confined_bind; [apply confined_lift | intros st].
  apply confined_for_each. intros line. now apply confined_emit.
Qed.

Lemma confined_main (env : externals) (a : args) :
  confined bench_event nowhere true (main env a).
Proof.
  unfold main. apply confined_bind; [now apply confined_call_load | intros m].
  apply confined_for_each. intros file. apply confined_bench_file.
Qed.

(** *** The snapshot check and the tests *)

Lemma confined_write_or_assert (env : externals) (p : path) (data : pyvalue) :
  confined check_event (fun q => q = SNAPSHOT_DIR env \/ q = p) false
    (_write_or_assert env p data).
Proof.
  unfold _write_or_assert.
  apply confined_bind; [apply confined_mkdir; auto | intros _].
  apply confined_bind; [now apply confined_exists | intros present].
  destruct present.
  - apply confined_bind; [now apply confined_read_text | intros text].
    apply confined_bind; [apply confined_lift | intros expected].
    destruct (py_eq data expected); [apply confined_ret | apply confined_raise].
  - apply confined_bind; [apply confined_write_text; auto | intros _].
    apply confined_raise.
Qed.

Lemma confined_compute_loop (env : externals) (m : model) (sample_paths : list string)
    (sampling_rate : Z) :
  forall results,
    confined session_event nowhere false
      (compute_loop env m sample_paths sampling_rate results).
Proof.
  induction sample_paths as [|sample rest IH]; intros results; cbn [compute_loop].
  - apply confined_ret.
  - apply confined_bind; [now apply confined_call_read_audio | intros samples].
    apply confined_bind; [now apply confined_call_detect | intros ts]. apply IH.
Qed.

Lemma confined_snapshot_test (env : externals) (kw : kwargs) (name : string) (p : path) :
  confined session_event (fun q => q = SNAPSHOT_DIR env \/ q = p) false
    (bind (call_load env kw) (fun m =>
     bind (_compute_snapshot env m SAMPLES 16000) (fun snaps =>
     _write_or_assert env p (PyDict [("model", PyStr name); ("snapshots", snaps)])))).
Proof.
  apply confined_bind; [now apply confined_call_load | intros m].
  apply confined_bind.
  - unfold _compute_snapshot.
    apply confined_bind; [|intros; apply confined_ret].
    eapply confined_weaken; [| | |apply confined_compute_loop]; auto.
    intros q [].
  - intros snaps. eapply confined_weaken; [| | |apply confined_write_or_assert]; auto.
    intros [] H; (reflexivity || discriminate H).
Qed.

Lemma snapshot_paths_differ (env : externals) :
  jit_path env <> onnx_path env /\
  jit_path env <> SNAPSHOT_DIR env /\ onnx_path env <> SNAPSHOT_DIR env.
Proof.
  unfold jit_path, onnx_path, path_join. split; [|split].
  - intros H. apply app_inv_head in H. discriminate.
  - intros H. apply (f_equal (@length string)) in H. rewrite length_app in H. cbn in H. lia.
  - intros H. apply (f_equal (@length string)) in H. rewrite length_app in H. cbn in H. lia.
Qed.

End FootprintProofs.

(** ** Part XV. Further properties of the two tools *)

Module FootprintFacts.
Import Py Runtime Effects Bench Snapshots BenchSpec SnapshotSpec Footprint MonadFacts
       FootprintProofs.
Local Open Scope nat_scope.
Local Open Scope list_scope.

(** X1: whatever the configuration and whatever the environment answers,
    the benchmark leaves the file system as it found it, and everything it
    does is a load, an audio read, a detection, a clock reading or a
    print. *)
Theorem benchmark_touches_no_file (env : externals) (a : args) (w : world) :
  fs (world_after (main env a) w) = fs w /\
  Forall (fun ev => bench_event ev = true) (events_of (main env a) w).
Proof.
  destruct (confined_main env a w) as (Hev & Hfs & _). split; [|exact Hev].
  apply map_eq. intros q. apply Hfs. intros [].
Qed.

(** X2: a snapshot check changes no path but the snapshot directory and
    the snapshot path it was given, does nothing but the four file-system
    calls, and never reads the clock. *)
Theorem snapshot_check_footprint (env : externals) (p : path) (data : pyvalue) (w : world) :
  (forall q, q <> SNAPSHOT_DIR env -> q <> p ->
     fs (world_after (_write_or_assert env p data) w) !! q = fs w !! q) /\
  Forall (fun ev => check_event ev = true) (events_of (_write_or_assert env p data) w) /\
  ticks (world_after (_write_or_assert env p data) w) = ticks w.
Proof.
  destruct (confined_write_or_assert env p data w) as (Hev & Hfs & Htk).
  split; [|split; [exact Hev | now apply Htk]].
  intros q H1 H2. apply Hfs. intros [|]; congruence.
Qed.

(** X3: each test keeps to its own snapshot: the jit test leaves the onnx
    snapshot as it is and the onnx test leaves the jit snapshot as it is,
    whatever they find and whatever the Detector answers; and a whole test
    session never reads the clock and never prints. *)
Theorem tests_keep_to_their_snapshot (env : externals) (w : world) :
  fs (world_after (test_jit_snapshot env) w) !! onnx_path env = fs w !! onnx_path env /\
  fs (world_after (test_onnx_snapshot env) w) !! jit_path env = fs w !! jit_path env /\
  Forall (fun ev => session_event ev = true) (events_of (pytest_session env) w) /\
  ticks (world_after (pytest_session env) w) = ticks w.
Proof.
  destruct (snapshot_paths_differ env) as (Hjo & Hjd & Hod).
  split; [|split].
  - destruct (confined_snapshot_test env [("onnx", PyBool false)] "jit" (jit_path env) w)
      as (_ & Hfs & _).
    apply Hfs. intros [|]; congruence.
  - destruct (confined_snapshot_test env [("onnx", PyBool true)] "onnx" (onnx_path env) w)
      as (_ & Hfs & _).
    apply Hfs. intros [|]; congruence.
  - assert (Hs : confined session_event
                   (fun q => q = SNAPSHOT_DIR env \/ q = jit_path env \/ q = onnx_path env)
                   false (pytest_session env)).
    { unfold pytest_session.
      apply confined_bind; [now apply confined_emit | intros _].
      apply confined_bind.
      { apply confined_run_test.
        eapply confined_weaken;
          [| | |apply (confined_snapshot_test env [("onnx", PyBool false)] "jit" (jit_path env))];
          auto. intros q [|]; auto. }
      intros jit. apply confined_bind; [|intros; apply confined_ret].
      apply confined_run_test.
      eapply confined_weaken;
        [| | |apply (confined_snapshot_test env [("onnx", PyBool true)] "onnx" (onnx_path env))];
        auto. intros q [|]; auto. }
    destruct (Hs w) as (Hev & _ & Htk). split; [exact Hev | now apply Htk].
Qed.

End FootprintFacts.

(** ** Part XVI. The benchmark runner: errors and edge cases *)

Module BenchEdges.
Import Py FloatOrder Runtime Effects Bench BenchSpec Footprint FloatFacts MonadFacts
       BenchProofs FootprintProofs.
Local Open Scope nat_scope.
Local Open Scope list_scope.

Lemma bind_assoc {A B C} (c : M A) (k : A -> M B) (k' : B -> M C) (w : world) :
  bind (bind c k) k' w = bind c (fun a => bind (k a) k') w.
Proof.
  unfold bind. destruct (c w) as [[[a|e] w1] evs]; [|reflexivity].
  destruct (k a w1) as [[[b|e] w2] evs']; [|reflexivity].
  destruct (k' b w2) as [[r w3] evs'']. now rewrite app_assoc.
Qed.

Lemma bind_ret_l {A} (c : M A) (w : world) : bind (ret tt) (fun _ => c) w = c w.
Proof. unfold bind, ret. now destruct (c w) as [[r w'] evs]. Qed.

Lemma for_each_app {A} (xs ys : list A) (body : A -> M unit) (w : world) :
  for_each (xs ++ ys) body w = bind (for_each xs body) (fun _ => for_each ys body) w.
Proof.
  revert w. induction xs as [|x xs IH]; intros w; cbn [for_each app].
  - now rewrite bind_ret_l.
  - rewrite bind_assoc. apply bind_ext. intros _ w'. apply IH.
Qed.

Lemma bench_file_read_fails (env : externals) (a : args) (m : model) (file : string)
    (e : exn) (w : world) :
  read_audio env file (read_kwargs a) = Raise e ->
  bench_file env a m file w = (Raise e, w, [ReadAudio file (read_kwargs a)]).
Proof.
  intros Hread. unfold bench_file.
  erewrite bind_raise; [reflexivity|]. now rewrite run_call_read_audio, Hread.
Qed.

(** X4: one unreadable file aborts the whole run. When the files before it
    are processed normally and the Audio Reader raises on it, the run ends
    with that exception right after the attempt to read it: the earlier
    reports have been printed, and no later file is read, detected or
    reported. *)
Theorem bad_file_aborts_the_run (env : externals) (a : args) (m : model)
    (good : list string) (bad : string) (rest : list string) (e : exn) (w : world) :
  audio a = good ++ bad :: rest ->
  load_silero_vad env (load_kwargs a) = Ok m ->
  (1 <= runs a)%Z ->
  forallb (file_ok env a m) good = true ->
  read_audio env bad (read_kwargs a) = Raise e ->
  outcome_of (main env a) w = Raise e /\
  events_of (main env a) w
  = LoadModel (load_kwargs a)
    :: files_events env a m good (ticks w) ++ [ReadAudio bad (read_kwargs a)].
Proof.
  intros Haudio Hload Hruns Hgood Hbad. unfold outcome_of, events_of, main.
  erewrite bind_ok; [|rewrite run_call_load, Hload; reflexivity].
  rewrite Haudio, for_each_app.
  erewrite bind_ok; [|apply files_loop; assumption].
  cbn [for_each]. erewrite bind_raise; [|apply bench_file_read_fails; exact Hbad].
  cbn [fst snd]. split; reflexivity.
Qed.

Lemma bad_file_aborts_the_run_witness :
  outcome_of (main (Scenario.env_missing "missing.wav") Scenario.args_three_files) Mock.fresh
  = Raise FileNotFoundError /\
  events_of (main (Scenario.env_missing "missing.wav") Scenario.args_three_files) Mock.fresh
  = LoadModel (load_kwargs Scenario.args_three_files)
    :: files_events (Scenario.env_missing "missing.wav") Scenario.args_three_files
         (ModelHandle 0) ["a.wav"] 0
       ++ [ReadAudio "missing.wav" (read_kwargs Scenario.args_three_files)].
Proof.
  apply (bad_file_aborts_the_run (Scenario.env_missing "missing.wav") Scenario.args_three_files
           (ModelHandle 0) ["a.wav"] "missing.wav" ["b.wav"] FileNotFoundError Mock.fresh);
    try reflexivity. cbn. lia.
Defined.

(** *** Reports are printed whole *)

Lemma silent_confined_prefix {A} (c : M A) (k : A -> M unit) (n : nat) :
  confined silent nowhere true c ->
  (forall a, prints_all_or_nothing n (k a)) ->
  prints_all_or_nothing n (bind c k).
Proof.
  intros Hc Hk w. destruct (Hc w) as (Hev & _ & _).
  assert (H0 : count is_print (events_of c w) = 0).
  { unfold count. induction Hev as [|ev evs Hs _ IH]; [reflexivity|].
    cbn. unfold silent in Hs. apply negb_true_iff in Hs. now rewrite Hs. }
  unfold outcome_of, events_of, bind in *.
  destruct (c w) as [[[a|e] w1] evs]; cbn [fst snd] in *.
  - specialize (Hk a w1). unfold outcome_of, events_of in Hk.
    destruct (k a w1) as [[r w2] evs']; cbn [fst snd] in *.
    rewrite count_app, H0. exact Hk.
  - split; [discriminate | intros _; exact H0].
Qed.

Lemma silent_timed_runs (env : externals) (a : args) (samples : tensor) (m : model) (n : nat) :
  forall acc, confined silent nowhere true (timed_runs env a samples m n acc).
Proof.
  induction n as [|n IH]; intros acc; cbn [timed_runs].
  - apply confined_ret.
  - apply confined_bind; [now apply confined_perf_counter | intros start].
    apply confined_bind; [now apply confined_call_detect | intros _].
    apply confined_bind; [now apply confined_perf_counter | intros stop]. apply IH.
Qed.

(** X5: the report of a file is printed whole or not at all: four lines
    when the file's processing returns, none when anything in it raises
    (the read, the duration, a warmup or timed detection, the
    aggregation). *)
Theorem report_is_all_or_nothing (env : externals) (a : args) (m : model) (file : string)
    (w : world) :
  (outcome_of (bench_file env a m file) w = Ok tt ->
     count is_print (events_of (bench_file env a m file) w) = 4) /\
  (outcome_of (bench_file env a m file) w <> Ok tt ->
     count is_print (events_of (bench_file env a m file) w) = 0).
Proof.
  revert w. change (prints_all_or_nothing 4 (bench_file env a m file)). unfold bench_file.
  apply silent_confined_prefix; [now apply confined_call_read_audio | intros samples].
  apply silent_confined_prefix; [apply confined_lift | intros d].
  apply silent_confined_prefix.
  { apply confined_repeat_n.
    apply confined_bind; [now apply confined_call_detect | intros; apply confined_ret]. }
  intros _. apply silent_confined_prefix; [apply silent_timed_runs | intros timings].
  apply silent_confined_prefix; [apply confined_lift | intros st].
  intros w. unfold outcome_of, events_of. rewrite print_lines. cbn [fst snd].
  split; [intros _; reflexivity | congruence].
Qed.

(** *** The duration of line 72 *)

(** X6: with [--sampling-rate 0] the duration of line 72 divides by zero:
    once the Audio Reader has returned, the file's processing raises
    [ZeroDivisionError] before any detection call, clock reading or
    print. *)
Theorem zero_sampling_rate_raises (env : externals) (a : args) (m : model) (file : string)
    (samples : tensor) (w : world) :
  sampling_rate a = 0%Z ->
  read_audio env file (read_kwargs a) = Ok samples ->
  is_ok (float_of_int (numel samples)) = true ->
  bench_file env a m file w
  = (Raise ZeroDivisionError, w, [ReadAudio file (read_kwargs a)]).
Proof.
  intros Hrate Hread [count Hcount]%is_ok_inv. unfold bench_file.
  erewrite bind_ok; [|rewrite run_call_read_audio, Hread; reflexivity].
  erewrite bind_raise; [reflexivity|].
  unfold lift, audio_duration_of. rewrite Hrate, Hcount. reflexivity.
Qed.

Lemma zero_sampling_rate_raises_witness :
  bench_file (Mock.env []) Scenario.args_zero_rate (ModelHandle 0) "a.wav" Mock.fresh
  = (Raise ZeroDivisionError, Mock.fresh,
     [ReadAudio "a.wav" (read_kwargs Scenario.args_zero_rate)]).
Proof.
  apply (zero_sampling_rate_raises (Mock.env []) Scenario.args_zero_rate (ModelHandle 0)
           "a.wav" Mock.samples Mock.fresh); reflexivity.
Defined.

(** X7: an empty audio buffer read at a positive sampling rate has
    duration zero, so whatever the timings the factor is positive infinity
    and the report shows [rtf: infx]. *)
Theorem empty_audio_reports_infinity (a : args) (rate : float) (x : float) (rest : list float) :
  float_of_int (sampling_rate a) = Ok rate ->
  PrimFloat.ltb float_zero rate = true ->
  exists d st,
    audio_duration_of a [] = Ok d /\
    PrimFloat.eqb d float_zero = true /\
    aggregate (x :: rest) d = Ok st /\
    rtf st = float_inf /\
    (format_fixed 3 (rtf st) ++ "x")%string = "infx"%string.
Proof.
  intros Hrate Hpos.
  pose proof (positive_not_zero rate Hpos) as Hnz.
  set (d := PrimFloat.div float_zero rate).
  assert (Hd : audio_duration_of a [] = Ok d).
  { unfold audio_duration_of, py_truediv. rewrite Hrate.
    change (float_of_int (numel [])) with (@Ok float float_zero). now rewrite Hnz. }
  assert (Hzero : PrimFloat.eqb d float_zero = true).
  { unfold d. rewrite FloatAxioms.eqb_spec, FloatAxioms.div_spec.
    rewrite FloatAxioms.ltb_spec in Hpos.
    change (Prim2SF float_zero) with (S754_zero false) in *.
    destruct (Prim2SF rate) as [s|s| |s mant ex]; try destruct s; try discriminate;
      reflexivity. }
  destruct (aggregate_total x rest d) as [st Hst].
  exists d, st. split; [exact Hd|]. split; [exact Hzero|]. split; [exact Hst|].
  assert (Hrtf : rtf st = float_inf).
  { unfold aggregate in Hst.
    destruct (statistics_mean (x :: rest)); [|discriminate].
    cbn [py_min py_max] in Hst. rewrite real_time_factor_total, Hzero in Hst.
    injection Hst as <-. reflexivity. }
  split; [exact Hrtf|]. rewrite Hrtf. reflexivity.
Qed.

Lemma empty_audio_reports_infinity_witness :
  exists d st,
    audio_duration_of (default_args ["a.wav"]) [] = Ok d /\
    PrimFloat.eqb d float_zero = true /\
    aggregate [0.5%float] d = Ok st /\
    rtf st = float_inf /\
    (format_fixed 3 (rtf st) ++ "x")%string = "infx"%string.
Proof.
  apply (empty_audio_reports_infinity (default_args ["a.wav"]) 16000%float 0.5%float []);
    reflexivity.
Defined.

End BenchEdges.

(** ** Part XVII. The aggregates do not depend on the order of the samples *)

Module AggregateFacts.
Import Py FloatOrder Runtime Effects Bench BenchSpec FloatFacts MonadFacts BenchProofs.
Local Open Scope Z_scope.
Local Open Scope list_scope.

Lemma dyadic_add_twice (ma ea mx ex my ey : Z) :
  dyadic_add (dyadic_add (ma, ea) (mx, ex)) (my, ey)
  = (ma * 2 ^ (ea - Z.min (Z.min ea ex) ey)
     + mx * 2 ^ (ex - Z.min (Z.min ea ex) ey)
     + my * 2 ^ (ey - Z.min (Z.min ea ex) ey),
     Z.min (Z.min ea ex) ey).
Proof.
  unfold dyadic_add. f_equal.
  set (e1 := Z.min ea ex). set (e := Z.min e1 ey).
  replace (ea - e) with ((ea - e1) + (e1 - e)) by lia.
  replace (ex - e) with ((ex - e1) + (e1 - e)) by lia.
  rewrite !Z.pow_add_r by lia. ring.
Qed.

Lemma dyadic_add_swap (acc x y : dyadic) :
  dyadic_add (dyadic_add acc x) y = dyadic_add (dyadic_add acc y) x.
Proof.
  destruct acc as [ma ea], x as [mx ex], y as [my ey].
  rewrite !dyadic_add_twice.
  replace (Z.min (Z.min ea ey) ex) with (Z.min (Z.min ea ex) ey) by lia.
  f_equal. ring.
Qed.

Lemma exact_sum_permutation (l l' : list float) :
  Permutation l l' -> forall acc, exact_sum l acc = exact_sum l' acc.
Proof.
  induction 1 as [|x l l' _ IH|x y l|l l' l'' _ IH1 _ IH2]; intros acc.
  - reflexivity.
  - cbn [exact_sum]. destruct (exact_ratio x); [apply IH | reflexivity].
  - cbn [exact_sum]. destruct (exact_ratio x), (exact_ratio y); try reflexivity.
    now rewrite dyadic_add_swap.
  - now rewrite IH1.
Qed.

Lemma lex_antisym (a b : Z * Z * Z) : lex_le a b -> lex_le b a -> lex a b = Eq.
Proof. destruct a as [[a1 a2] a3], b as [[b1 b2] b3]; cbn. lex_cases. Qed.

Lemma leb_antisym (x y : float) :
  not_nan x -> not_nan y ->
  PrimFloat.leb x y = true -> PrimFloat.leb y x = true -> PrimFloat.eqb x y = true.
Proof.
  intros Hx Hy H1%leb_key H2%leb_key; auto.
  rewrite FloatAxioms.eqb_spec. unfold SFeqb.
  rewrite SFcompare_key by now apply not_nan_spec.
  now rewrite (lex_antisym _ _ H1 H2).
Qed.

(** X8: the aggregates of a file do not depend on the order in which the
    samples were recorded: for finite samples the mean of a permutation is
    the very same float (the total is exact), and its minimum and maximum
    are numerically equal to the original ones. *)
Theorem aggregates_ignore_order (l l' : list float) :
  Permutation l l' ->
  l <> [] ->
  Forall (fun x => is_finite x = true) l ->
  exists mean lo hi lo' hi',
    statistics_mean l = Ok mean /\ statistics_mean l' = Ok mean /\
    py_min l = Ok lo /\ py_min l' = Ok lo' /\ PrimFloat.eqb lo lo' = true /\
    py_max l = Ok hi /\ py_max l' = Ok hi' /\ PrimFloat.eqb hi hi' = true.
Proof.
  intros Hperm Hne Hfin.
  assert (Hfin' : Forall (fun x => is_finite x = true) l')
    by (eapply Permutation_Forall; eauto).
  destruct l as [|x rest]; [congruence|].
  destruct l' as [|x' rest']; [apply Permutation_length in Hperm; discriminate|].
  assert (Hlen : length rest = length rest').
  { apply Permutation_length in Hperm. cbn in Hperm. lia. }
  destruct (exact_sum_value (x :: rest) Hfin (0, 0)) as (total & Hsum & _).
  pose proof (exact_sum_permutation _ _ Hperm (0, 0)) as Hsum'. rewrite Hsum in Hsum'.
  assert (Hnan : Forall not_nan (x :: rest))
    by (eapply Forall_impl; [exact Hfin | intros y Hy; now apply finite_not_nan]).
  assert (Hnan' : Forall not_nan (x' :: rest'))
    by (eapply Forall_impl; [exact Hfin' | intros y Hy; now apply finite_not_nan]).
  apply Forall_cons_iff in Hnan as [Hx Hrest]. apply Forall_cons_iff in Hnan' as [Hx' Hrest'].
  destruct (fold_min_least rest x Hx Hrest) as (Hlo_nan & Hlo_in & Hlo_x & Hlo_rest).
  destruct (fold_min_least rest' x' Hx' Hrest') as (Hlo_nan' & Hlo_in' & Hlo_x' & Hlo_rest').
  destruct (fold_max_greatest rest x Hx Hrest) as (Hhi_nan & Hhi_in & Hhi_x & Hhi_rest).
  destruct (fold_max_greatest rest' x' Hx' Hrest') as (Hhi_nan' & Hhi_in' & Hhi_x' & Hhi_rest').
  assert (Hlo_all : Forall (fun y => PrimFloat.leb
            (fold_left (fun b item => if PrimFloat.ltb item b then item else b) rest x) y
            = true) (x :: rest)) by (constructor; assumption).
  assert (Hlo_all' : Forall (fun y => PrimFloat.leb
            (fold_left (fun b item => if PrimFloat.ltb item b then item else b) rest' x') y
            = true) (x' :: rest')) by (constructor; assumption).
  assert (Hhi_all : Forall (fun y => PrimFloat.leb y
            (fold_left (fun b item => if PrimFloat.ltb b item then item else b) rest x)
            = true) (x :: rest)) by (constructor; assumption).
  assert (Hhi_all' : Forall (fun y => PrimFloat.leb y
            (fold_left (fun b item => if PrimFloat.ltb b item then item else b) rest' x')
            = true) (x' :: rest')) by (constructor; assumption).
  rewrite List.Forall_forall in Hlo_all, Hlo_all', Hhi_all, Hhi_all'.
  eexists _, _, _, _, _.
  split; [unfold statistics_mean; rewrite Hsum; reflexivity|].
  split; [unfold statistics_mean; rewrite <- Hsum', Hlen; reflexivity|].
  split; [reflexivity|]. split; [reflexivity|]. split.
  { apply leb_antisym; auto.
    - apply Hlo_all. eapply Permutation_in; [apply Permutation_sym; exact Hperm | exact Hlo_in'].
    - apply Hlo_all'. eapply Permutation_in; [exact Hperm | exact Hlo_in]. }
  split; [reflexivity|]. split; [reflexivity|].
  apply leb_antisym; auto.
  - apply Hhi_all'. eapply Permutation_in; [exact Hperm | exact Hhi_in].
  - apply Hhi_all. eapply Permutation_in; [apply Permutation_sym; exact Hperm | exact Hhi_in'].
Qed.

Lemma aggregates_ignore_order_witness :
  exists mean lo hi lo' hi',
    statistics_mean [0.1; 0.2; 0.3]%float = Ok mean /\
    statistics_mean [0.3; 0.1; 0.2]%float = Ok mean /\
    py_min [0.1; 0.2; 0.3]%float = Ok lo /\ py_min [0.3; 0.1; 0.2]%float = Ok lo' /\
    PrimFloat.eqb lo lo' = true /\
    py_max [0.1; 0.2; 0.3]%float = Ok hi /\ py_max [0.3; 0.1; 0.2]%float = Ok hi' /\
    PrimFloat.eqb hi hi' = true.
Proof.
  apply aggregates_ignore_order.
  - apply Permutation_sym, (Permutation_cons_append [0.1; 0.2]%float 0.3%float).
  - discriminate.
  - repeat constructor.
Defined.

End AggregateFacts.

(** ** Part XVIII. The snapshot computation and the check at their edges *)

Module SnapshotEdges.
Import Py Runtime Effects Snapshots BenchSpec SnapshotSpec Footprint SnapshotSteps
       FloatFacts MonadFacts SnapshotProofs FootprintProofs.
Local Open Scope nat_scope.
Local Open Scope list_scope.

(** The loop over the samples that are answered, up to the first that may
    not be. *)
Lemma compute_loop_answered (env : externals) (m : model) (sampling_rate : Z)
    (done : list answered) (rest : list string) :
  Forall (answers env m sampling_rate) done ->
  forall (results : list pyvalue) (w : world),
    compute_loop env m (map ans_sample done ++ rest) sampling_rate results w
    = (let '(r, w', evs) :=
         compute_loop env m rest sampling_rate
           (results ++ map (sample_entry sampling_rate) done) w in
       (r, w', concat (map (sample_events m sampling_rate) done) ++ evs)).
Proof.
  induction 1 as [|a done [Hread Hdet] _ IH]; intros results w.
  - cbn [map app concat]. rewrite app_nil_r.
    now destruct (compute_loop env m rest sampling_rate results w) as [[r w'] evs].
  - cbn [map app concat compute_loop].
    erewrite bind_ok; [|rewrite run_call_read_audio, Hread; reflexivity].
    erewrite bind_ok; [|rewrite run_call_detect, Hdet; reflexivity].
    rewrite IH. unfold sample_entry at 2. rewrite <- app_assoc. cbn [app].
    destruct (compute_loop env m rest sampling_rate _ w) as [[r w'] evs].
    reflexivity.
Qed.

Lemma compute_loop_fails (env : externals) (m : model) (sampling_rate : Z) (bad : string)
    (rest : list string) (e : exn) (evs : list event) (results : list pyvalue) (w : world) :
  fails_with env m sampling_rate bad e evs ->
  compute_loop env m (bad :: rest) sampling_rate results w = (Raise e, w, evs).
Proof.
  intros [[Hread ->] | (audio & Hread & Hdet & ->)]; cbn [compute_loop].
  - erewrite bind_raise; [reflexivity|]. now rewrite run_call_read_audio, Hread.
  - erewrite bind_ok; [|rewrite run_call_read_audio, Hread; reflexivity].
    erewrite bind_raise; [reflexivity|]. now rewrite run_call_detect, Hdet.
Qed.

Lemma compute_snapshot_aborts (env : externals) (m : model) (sampling_rate : Z)
    (good : list answered) (bad : string) (rest : list string) (e : exn)
    (evs : list event) (w : world) :
  Forall (answers env m sampling_rate) good ->
  fails_with env m sampling_rate bad e evs ->
  _compute_snapshot env m (map ans_sample good ++ bad :: rest) sampling_rate w
  = (Raise e, w, concat (map (sample_events m sampling_rate) good) ++ evs).
Proof.
  intros Hgood Hbad. unfold _compute_snapshot.
  erewrite bind_raise; [reflexivity|].
  rewrite (compute_loop_answered env m sampling_rate good (bad :: rest) Hgood).
  now rewrite (compute_loop_fails env m sampling_rate bad rest e evs _ w Hbad).
Qed.

Lemma compute_snapshot_answered (env : externals) (m : model) (sampling_rate : Z)
    (done : list answered) (w : world) :
  Forall (answers env m sampling_rate) done ->
  _compute_snapshot env m (map ans_sample done) sampling_rate w
  = (Ok (PyList (map (sample_entry sampling_rate) done)), w,
     concat (map (sample_events m sampling_rate) done)).
Proof.
  intros Hdone. unfold _compute_snapshot.
  pose proof (compute_loop_answered env m sampling_rate done [] Hdone [] w) as H.
  rewrite app_nil_r in H. cbn [compute_loop app] in H. unfold ret at 1 in H.
  rewrite app_nil_r in H.
  erewrite bind_ok_ok; [| exact H | reflexivity].
  now rewrite app_nil_r.
Qed.

(** X9: the snapshot computation reads and analyses the samples one after
    the other, in the order given, each with the fixed settings, and
    returns one entry per sample in that order, holding the base name of
    the sample, the sampling rate passed in and the Detector's answer as it
    came; it leaves the world as it found it. *)
Theorem compute_snapshot_protocol (env : externals) (m : model) (sampling_rate : Z)
    (done : list answered) (w : world) :
  Forall (answers env m sampling_rate) done ->
  outcome_of (_compute_snapshot env m (map ans_sample done) sampling_rate) w
  = Ok (PyList (map (fun a => PyDict [("file", PyStr (path_name (ans_sample a)));
                                       ("sampling_rate", PyInt sampling_rate);
                                       ("speech_timestamps", ans_ts a)]) done)) /\
  world_after (_compute_snapshot env m (map ans_sample done) sampling_rate) w = w /\
  events_of (_compute_snapshot env m (map ans_sample done) sampling_rate) w
  = concat (map (fun a => [ReadAudio (ans_sample a) [("sampling_rate", PyInt sampling_rate)];
                           Detect (ans_audio a) m
                             [("visualize_probs", PyBool false);
                              ("return_seconds", PyBool true);
                              ("time_resolution", PyInt 3)]]) done).
Proof.
  intros Hdone. unfold outcome_of, world_after, events_of.
  rewrite (compute_snapshot_answered env m sampling_rate done w Hdone).
  repeat split.
Qed.

Lemma compute_snapshot_protocol_witness :
  outcome_of (_compute_snapshot (Mock.env []) (ModelHandle 0)
                (map ans_sample (firstn 2 mock_answers)) 8000) Mock.fresh
  = Ok (PyList (map (fun a => PyDict [("file", PyStr (path_name (ans_sample a)));
                                       ("sampling_rate", PyInt 8000);
                                       ("speech_timestamps", ans_ts a)])
                  (firstn 2 mock_answers))) /\
  world_after (_compute_snapshot (Mock.env []) (ModelHandle 0)
                 (map ans_sample (firstn 2 mock_answers)) 8000) Mock.fresh = Mock.fresh /\
  events_of (_compute_snapshot (Mock.env []) (ModelHandle 0)
               (map ans_sample (firstn 2 mock_answers)) 8000) Mock.fresh
  = concat (map (fun a => [ReadAudio (ans_sample a) [("sampling_rate", PyInt 8000)];
                           Detect (ans_audio a) (ModelHandle 0)
                             [("visualize_probs", PyBool false);
                              ("return_seconds", PyBool true);
                              ("time_resolution", PyInt 3)]])
              (firstn 2 mock_answers)).
Proof.
  apply (compute_snapshot_protocol (Mock.env []) (ModelHandle 0) 8000
           (firstn 2 mock_answers) Mock.fresh).
  repeat constructor.
Defined.

(** X10: a sample that cannot be read, or that the Detector rejects, fails
    the test with that very exception, after the calls for the samples
    before it and the failing call; the later samples are not touched, the
    snapshot directory is not made, and no snapshot is compared or
    written: the world is as it was. *)
Theorem failing_sample_fails_the_test (env : externals) (use_onnx : bool) (m : model)
    (good : list answered) (bad : string) (rest : list string) (e : exn)
    (evs : list event) (w : world) :
  load_silero_vad env [("onnx", PyBool use_onnx)] = Ok m ->
  SAMPLES = map ans_sample good ++ bad :: rest ->
  Forall (answers env m 16000) good ->
  fails_with env m 16000 bad e evs ->
  snapshot_test env use_onnx w
  = (Raise e, w,
     LoadModel [("onnx", PyBool use_onnx)]
     :: concat (map (sample_events m 16000) good) ++ evs).
Proof.
  intros Hload Hsplit Hgood Hbad.
  pose proof (compute_snapshot_aborts env m 16000 good bad rest e evs w Hgood Hbad) as H.
  rewrite <- Hsplit in H.
  destruct use_onnx; unfold snapshot_test, test_onnx_snapshot, test_jit_snapshot;
    (erewrite bind_ok; [|rewrite run_call_load, Hload; reflexivity]);
    (erewrite bind_raise; [|exact H]); reflexivity.
Qed.

Lemma failing_sample_fails_the_test_witness :
  snapshot_test (Scenario.env_missing "tests/data/test.opus") false Mock.fresh
  = (Raise FileNotFoundError, Mock.fresh,
     LoadModel [("onnx", PyBool false)]
     :: concat
          (map (sample_events (ModelHandle 0) 16000)
             [ {| ans_sample := "tests/data/test.wav"; ans_audio := Mock.samples;
                  ans_ts := Mock.timestamps |} ])
        ++ [ReadAudio "tests/data/test.opus" [("sampling_rate", PyInt 16000)]]).
Proof.
  apply (failing_sample_fails_the_test (Scenario.env_missing "tests/data/test.opus") false
           (ModelHandle 0) _ "tests/data/test.opus" ["tests/data/test.mp3"]).
  - reflexivity.
  - reflexivity.
  - repeat constructor.
  - left. split; reflexivity.
Defined.

(** X11: [exist_ok=True] does not cover a regular file in the place of the
    snapshot directory: the check then stops at its first call with
    [FileExistsError], whatever the snapshot path and the data; nothing is
    looked up, compared or written. *)
Theorem snapshot_dir_blocked (env : externals) (p : path) (data : pyvalue) (w : world)
    (content : string) :
  fs w !! SNAPSHOT_DIR env = Some (File content) ->
  _write_or_assert env p data w = (Raise FileExistsError, w, [Mkdir (SNAPSHOT_DIR env)]).
Proof.
  intros Hfile. unfold _write_or_assert.
  erewrite bind_raise; [reflexivity|].
  unfold path_mkdir_exist_ok, bind, emit, step. now rewrite Hfile.
Qed.

Lemma snapshot_dir_blocked_witness :
  _write_or_assert (Mock.env []) (jit_path (Mock.env [])) (record_to_py Mock.record) blocked
  = (Raise FileExistsError, blocked, [Mkdir (SNAPSHOT_DIR (Mock.env []))]).
Proof.
  apply (snapshot_dir_blocked (Mock.env []) _ _ blocked "").
  reflexivity.
Defined.

(** X12: a comparison that fails never repairs the snapshot. When the file
    is there and the check does not pass, the check raises the decoder's
    own exception if the file does not parse and [AssertionError] if it
    parses to something else; it has only made the directory, looked the
    file up and read it, and the file still has the content it had. *)
Theorem failed_comparison_keeps_the_snapshot (env : externals) (w : world) (name : string)
    (data : pyvalue) (content : string) :
  let p := path_join (SNAPSHOT_DIR env) name in
  let check := _write_or_assert env p data in
  sane env w name = true ->
  fs w !! p = Some (File content) ->
  outcome_of check w <> Ok tt ->
  outcome_of check w
  = match json_loads env content with
    | Ok _ => Raise AssertionError
    | Raise e => Raise e
    end /\
  events_of check w = [Mkdir (SNAPSHOT_DIR env); Exists p; OpenRead p] /\
  fs (world_after check w) !! p = Some (File content).
Proof.
  intros p check Hsane Hpresent. subst check p.
  unfold outcome_of, events_of, world_after.
  rewrite (write_or_assert_present env w name data content Hsane Hpresent). cbn [fst snd].
  intros Hfail. split; [|split].
  - destruct (json_loads env content) as [expected|e]; [|reflexivity].
    destruct (py_eq data expected); [congruence | reflexivity].
  - reflexivity.
  - rewrite after_mkdir_other; [assumption | apply path_join_ne].
Qed.

Lemma failed_comparison_keeps_the_snapshot_witness :
  outcome_of (_write_or_assert (Mock.env []) (path_join (SNAPSHOT_DIR (Mock.env [])) "jit.json")
                (record_to_py Mock.record)) corrupt
  = match json_loads (Mock.env []) "{" with
    | Ok _ => Raise AssertionError
    | Raise e => Raise e
    end /\
  events_of (_write_or_assert (Mock.env []) (path_join (SNAPSHOT_DIR (Mock.env [])) "jit.json")
               (record_to_py Mock.record)) corrupt
  = [Mkdir (SNAPSHOT_DIR (Mock.env []));
     Exists (path_join (SNAPSHOT_DIR (Mock.env [])) "jit.json");
     OpenRead (path_join (SNAPSHOT_DIR (Mock.env [])) "jit.json")] /\
  fs (world_after
        (_write_or_assert (Mock.env []) (path_join (SNAPSHOT_DIR (Mock.env [])) "jit.json")
           (record_to_py Mock.record)) corrupt)
  !! path_join (SNAPSHOT_DIR (Mock.env [])) "jit.json" = Some (File "{").
Proof.
  apply (failed_comparison_keeps_the_snapshot (Mock.env []) corrupt "jit.json"
           (record_to_py Mock.record) "{").
  - reflexivity.
  - reflexivity.
  - vm_compute. discriminate.
Defined.

(** *** Key order *)

Lemma py_eq_map2_Forall2 {A} (f g : A -> pyvalue) (same : A -> A -> Prop) (xs ys : list A) :
  (forall x y, py_eq (f x) (g y) = true <-> same x y) ->
  py_eq (PyList (map f xs)) (PyList (map g ys)) = true <-> Forall2 same xs ys.
Proof.
  intros Hf. revert ys. induction xs as [|x xs IH]; intros ys.
  - rewrite py_eq_list_nil_l. destruct ys; cbn [map]; split; intros H;
      try constructor; try discriminate; inversion H.
  - cbn [map]. rewrite py_eq_list_cons. destruct ys as [|y ys]; cbn [map].
    + split; intros H; [discriminate | inversion H].
    + rewrite andb_true_iff, Hf, IH. split.
      * intros [? ?]. now constructor.
      * intros H. inversion H; subst. auto.
Qed.

Lemma py_eq_segment_stored (s t : segment) :
  py_eq (segment_to_py s) (segment_as_stored t) = true <-> same_segment s t.
Proof.
  unfold segment_to_py, segment_as_stored, same_segment. cbn.
  rewrite !andb_true_iff. tauto.
Qed.

Lemma py_eq_entry_stored (e f : entry) :
  py_eq (entry_to_py e) (entry_as_stored f) = true <-> same_entry e f.
Proof.
  unfold entry_to_py, entry_as_stored, same_entry.
  change (py_eq (PyDict [("file", PyStr (entry_file e));
                         ("sampling_rate", PyInt (entry_rate e));
                         ("speech_timestamps", PyList (map segment_to_py (entry_timestamps e)))])
                (PyDict [("file", PyStr (entry_file f));
                         ("sampling_rate", PyInt (entry_rate f));
                         ("speech_timestamps",
                          PyList (map segment_as_stored (entry_timestamps f)))]))
    with (String.eqb (entry_file e) (entry_file f)
          && ((entry_rate e =? entry_rate f)%Z
              && (py_eq (PyList (map segment_to_py (entry_timestamps e)))
                        (PyList (map segment_as_stored (entry_timestamps f))) && true))).
  rewrite !andb_true_iff, String.eqb_eq, Z.eqb_eq.
  rewrite (py_eq_map2_Forall2 segment_to_py segment_as_stored same_segment)
    by apply py_eq_segment_stored.
  tauto.
Qed.

(** X13: the comparison does not depend on the order of the keys. A record
    built by the test, with the keys of each timestamp in the Detector's
    order, equals a record as it is read back from a file written with the
    keys sorted exactly when the two agree leaf by leaf. *)
Theorem comparison_ignores_key_order (r s : snapshot_record) :
  py_eq (record_to_py r) (record_as_stored s) = true <-> same_record r s.
Proof.
  unfold record_to_py, record_as_stored, same_record.
  change (py_eq (PyDict [("model", PyStr (record_model r));
                         ("snapshots", PyList (map entry_to_py (record_snapshots r)))])
                (PyDict [("model", PyStr (record_model s));
                         ("snapshots", PyList (map entry_as_stored (record_snapshots s)))]))
    with (String.eqb (record_model r) (record_model s)
          && (py_eq (PyList (map entry_to_py (record_snapshots r)))
                    (PyList (map entry_as_stored (record_snapshots s))) && true)).
  rewrite !andb_true_iff, String.eqb_eq.
  rewrite (py_eq_map2_Forall2 entry_to_py entry_as_stored same_entry)
    by apply py_eq_entry_stored.
  tauto.
Qed.

(** The reference codec reads the sample record back in the sorted form. *)
Example stored_record_is_sorted :
  Json.loads (Json.dumps (record_to_py Mock.record) dump_kwargs)
  = Ok (record_as_stored Mock.record).
Proof. vm_compute. reflexivity. Qed.

(** *** The file name of a sample *)

Lemma append_empty_r (s : string) : (s ++ "")%string = s.
Proof.
  induction s as [|c s IH]; [reflexivity|].
  change (String c (s ++ "")%string = String c s). now rewrite IH.
Qed.

Lemma append_char_assoc (s t : string) (c : ascii) :
  ((s ++ String c "") ++ t)%string = (s ++ String c t)%string.
Proof.
  induction s as [|d s IH]; [reflexivity|].
  change (String d ((s ++ String c "") ++ t)%string = String d (s ++ String c t)%string).
  now rewrite IH.
Qed.

Lemma split_slash_free (name cur : string) :
  slash_free name = true -> split_slash name cur = [(cur ++ name)%string].
Proof.
  revert cur. induction name as [|c name IH]; intros cur H; cbn in *.
  - now rewrite append_empty_r.
  - apply andb_true_iff in H as [Hc Hname]. apply negb_true_iff in Hc. rewrite Hc.
    rewrite IH by assumption. now rewrite append_char_assoc.
Qed.

Lemma split_slash_dir (dir name cur : string) :
  exists front,
    split_slash (dir ++ String "/" name)%string cur = front ++ split_slash name "".
Proof.
  revert cur. induction dir as [|c dir IH]; intros cur.
  - exists [cur]. reflexivity.
  - change (String c dir ++ String "/" name)%string
      with (String c (dir ++ String "/" name)%string).
    cbn [split_slash]. destruct (Ascii.eqb c "/").
    + destruct (IH ""%string) as [front Hfront]. exists (cur :: front). now rewrite Hfront.
    + apply IH.
Qed.

(** X14: the [file] of an entry is the base name of the sample: whatever
    directory part precedes the last separator is dropped, and a bare file
    name is kept as it is. *)
Theorem entry_file_is_the_base_name (dir name : string) (sampling_rate : Z) (ts : pyvalue) :
  is_file_name name = true ->
  snapshot_entry (dir ++ "/" ++ name) sampling_rate ts
  = snapshot_entry name sampling_rate ts /\
  dict_get "file" (match snapshot_entry name sampling_rate ts with
                   | PyDict items => items
                   | _ => []
                   end) = Some (PyStr name).
Proof.
  intros [Hfree Hname]%andb_true_iff.
  assert (Hkeep : List.filter (fun c => negb (String.eqb c "" || String.eqb c "."))
                    [name] = [name]) by (cbn; now rewrite Hname).
  assert (Hbare : path_name name = name).
  { unfold path_name. rewrite split_slash_free by assumption.
    change ("" ++ name)%string with name. now rewrite Hkeep. }
  assert (Hdir : path_name (dir ++ "/" ++ name) = name).
  { unfold path_name. change ("/" ++ name)%string with (String "/" name).
    destruct (split_slash_dir dir name "") as [front ->].
    rewrite split_slash_free by assumption. change ("" ++ name)%string with name.
    rewrite List.filter_app, Hkeep. apply last_last. }
  unfold snapshot_entry. rewrite Hdir, Hbare. split; reflexivity.
Qed.

Lemma entry_file_is_the_base_name_witness :
  snapshot_entry ("tests/data" ++ "/" ++ "test.wav") 16000 Mock.timestamps
  = snapshot_entry "test.wav" 16000 Mock.timestamps /\
  dict_get "file" (match snapshot_entry "test.wav" 16000 Mock.timestamps with
                   | PyDict items => items
                   | _ => []
                   end) = Some (PyStr "test.wav").
Proof.
  apply (entry_file_is_the_base_name "tests/data" "test.wav" 16000 Mock.timestamps).
  reflexivity.
Defined.

(** *** Two sessions in a row *)

Lemma snapshot_test_run (env : externals) (use_onnx : bool) (m : model)
    (done : list answered) (w : world) :
  load_silero_vad env [("onnx", PyBool use_onnx)] = Ok m ->
  map ans_sample done = SAMPLES ->
  Forall (answers env m 16000) done ->
  snapshot_test env use_onnx w
  = (let '(r, w', evs) :=
       _write_or_assert env (path_join (SNAPSHOT_DIR env) (snapshot_name use_onnx))
         (test_data use_onnx done) w in
     (r, w', LoadModel [("onnx", PyBool use_onnx)]
             :: concat (map (sample_events m 16000) done) ++ evs)).
Proof.
  intros Hload Hsamples Hdone.
  pose proof (compute_snapshot_answered env m 16000 done w Hdone) as H.
  rewrite Hsamples in H.
  destruct use_onnx; unfold snapshot_test, test_onnx_snapshot, test_jit_snapshot;
    (erewrite bind_ok; [|rewrite run_call_load, Hload; reflexivity]);
    (erewrite bind_ok; [|exact H]);
    unfold test_data, model_name, snapshot_name;
    match goal with |- context [_write_or_assert ?e ?p ?d ?w] =>
      destruct (_write_or_assert e p d w) as [[r w'] evs] end;
    reflexivity.
Qed.

Lemma path_join_inj (d : path) (n1 n2 : string) :
  n1 <> n2 -> path_join d n1 <> path_join d n2.
Proof. unfold path_join. intros Hne H. apply app_inv_head in H. congruence. Qed.

Lemma written_lookup (env : externals) (name text : string) (w : world) :
  fs (written env name text w) !! path_join (SNAPSHOT_DIR env) name = Some (File text).
Proof. unfold written. cbn [fs set_fs]. apply lookup_insert_eq. Qed.

Lemma written_other (env : externals) (name text : string) (w : world) (q : path) :
  q <> path_join (SNAPSHOT_DIR env) name -> q <> SNAPSHOT_DIR env ->
  fs (written env name text w) !! q = fs w !! q.
Proof.
  intros H1 H2. unfold written. cbn [fs set_fs].
  rewrite lookup_insert_ne by congruence. now apply after_mkdir_other.
Qed.

Lemma written_dir (env : externals) (name text : string) (w : world) :
  sane env w name = true ->
  fs (written env name text w) !! SNAPSHOT_DIR env = Some Dir.
Proof.
  intros Hsane. unfold written. cbn [fs set_fs].
  rewrite lookup_insert_ne by apply path_join_ne.
  apply (after_mkdir_dir env w name Hsane).
Qed.

(** Creating one snapshot leaves the directory sane for the other. *)
Lemma sane_written_other (env : externals) (n1 n2 text : string) (w : world) :
  n1 <> n2 -> sane env w n1 = true -> sane env w n2 = true ->
  sane env (written env n1 text w) n2 = true.
Proof.
  intros Hne Hs1 Hs2.
  destruct (sane_inv env w n2 Hs2) as (Ht & _ & Hfile).
  assert (Hne1 : tests_dir env <> path_join (SNAPSHOT_DIR env) n1).
  { unfold SNAPSHOT_DIR, path_join. intros H. apply (f_equal (@length string)) in H.
    rewrite !length_app in H. cbn in H. lia. }
  assert (Hne2 : tests_dir env <> SNAPSHOT_DIR env)
    by (intros H; symmetry in H; revert H; apply path_join_ne).
  unfold sane.
  rewrite written_other by assumption. rewrite Ht.
  rewrite (written_dir env n1 text w Hs1).
  rewrite written_other; [| apply path_join_inj; congruence | apply path_join_ne].
  destruct Hfile as [-> | [content ->]]; reflexivity.
Qed.

Lemma snapshot_test_creates (env : externals) (use_onnx : bool) (m : model)
    (done : list answered) (w : world) :
  load_silero_vad env [("onnx", PyBool use_onnx)] = Ok m ->
  map ans_sample done = SAMPLES ->
  Forall (answers env m 16000) done ->
  sane env w (snapshot_name use_onnx) = true ->
  fs w !! path_join (SNAPSHOT_DIR env) (snapshot_name use_onnx) = None ->
  exists evs,
    snapshot_test env use_onnx w
    = (Raise (PytestFailed
                (created_message (path_join (SNAPSHOT_DIR env) (snapshot_name use_onnx)))),
       written env (snapshot_name use_onnx)
         (json_dumps env (test_data use_onnx done) dump_kwargs) w,
       evs).
Proof.
  intros Hload Hsamples Hdone Hsane Habsent.
  rewrite (snapshot_test_run env use_onnx m done w Hload Hsamples Hdone).
  rewrite (write_or_assert_absent env w _ _ Hsane Habsent).
  eexists. reflexivity.
Qed.

Lemma snapshot_test_passes (env : externals) (use_onnx : bool) (m : model)
    (done : list answered) (w : world) :
  load_silero_vad env [("onnx", PyBool use_onnx)] = Ok m ->
  map ans_sample done = SAMPLES ->
  Forall (answers env m 16000) done ->
  sane env w (snapshot_name use_onnx) = true ->
  fs w !! SNAPSHOT_DIR env = Some Dir ->
  fs w !! path_join (SNAPSHOT_DIR env) (snapshot_name use_onnx)
  = Some (File (json_dumps env (test_data use_onnx done) dump_kwargs)) ->
  round_trips env (test_data use_onnx done) ->
  exists evs, snapshot_test env use_onnx w = (Ok tt, w, evs).
Proof.
  intros Hload Hsamples Hdone Hsane Hdir Hfile (stored & Hback & Heq).
  rewrite (snapshot_test_run env use_onnx m done w Hload Hsamples Hdone).
  rewrite (write_or_assert_present env w _ _ _ Hsane Hfile).
  rewrite Hback, Heq, after_mkdir_idem by eauto.
  eexists. reflexivity.
Qed.

(** X15: two sessions in a row on a checkout without snapshots. When the
    model loads, the samples are answered and the JSON library reads back
    what it writes, the first session fails both tests, each with the
    message naming its own snapshot, and leaves the two snapshot files
    behind; the second session passes both tests and changes nothing. *)
Theorem first_session_creates_second_passes (env : externals) (jit onnx : model)
    (done_jit done_onnx : list answered) (w : world) :
  let session := pytest_session env in
  let w1 := world_after session w in
  load_silero_vad env [("onnx", PyBool false)] = Ok jit ->
  load_silero_vad env [("onnx", PyBool true)] = Ok onnx ->
  map ans_sample done_jit = SAMPLES ->
  map ans_sample done_onnx = SAMPLES ->
  Forall (answers env jit 16000) done_jit ->
  Forall (answers env onnx 16000) done_onnx ->
  sane env w "jit.json" = true ->
  sane env w "onnx.json" = true ->
  fs w !! jit_path env = None ->
  fs w !! onnx_path env = None ->
  round_trips env (test_data false done_jit) ->
  round_trips env (test_data true done_onnx) ->
  outcome_of session w
  = Ok [Raise (PytestFailed (created_message (jit_path env)));
        Raise (PytestFailed (created_message (onnx_path env)))] /\
  fs w1 !! jit_path env
  = Some (File (json_dumps env (test_data false done_jit) dump_kwargs)) /\
  fs w1 !! onnx_path env
  = Some (File (json_dumps env (test_data true done_onnx) dump_kwargs)) /\
  outcome_of session w1 = Ok [Ok tt; Ok tt] /\
  world_after session w1 = w1.
Proof.
  intros session w1 Hlj Hlo Hsj Hso Hdj Hdo Hsanej Hsaneo Hnoj Hnoo Hrtj Hrto.
  set (tj := json_dumps env (test_data false done_jit) dump_kwargs).
  set (to := json_dumps env (test_data true done_onnx) dump_kwargs).
  set (wj := written env "jit.json" tj w).
  set (wo := written env "onnx.json" to wj).
  assert (Hne : "jit.json" <> "onnx.json") by discriminate.
  assert (Hne' : "onnx.json" <> "jit.json") by discriminate.
  (* the first session *)
  destruct (snapshot_test_creates env false jit done_jit w Hlj Hsj Hdj Hsanej Hnoj)
    as [evs1 H1].
  assert (Hsaneo_j : sane env wj "onnx.json" = true)
    by (apply sane_written_other; assumption).
  assert (Hnoo_j : fs wj !! onnx_path env = None).
  { unfold wj. rewrite written_other; [assumption | | apply path_join_ne].
    apply path_join_inj. congruence. }
  destruct (snapshot_test_creates env true onnx done_onnx wj Hlo Hso Hdo Hsaneo_j Hnoo_j)
    as [evs2 H2].
  assert (Hfirst : session w
                   = (Ok [Raise (PytestFailed (created_message (jit_path env)));
                          Raise (PytestFailed (created_message (onnx_path env)))],
                      wo, SetNumThreads 1 :: evs1 ++ evs2 ++ [])).
  { unfold session, pytest_session, module_body, torch_set_num_threads, run_test, bind, emit.
    cbn [snapshot_test snapshot_name] in H1, H2.
    change (written env "jit.json"
              (json_dumps env (test_data false done_jit) dump_kwargs) w) with wj in H1.
    change (written env "onnx.json"
              (json_dumps env (test_data true done_onnx) dump_kwargs) wj) with wo in H2.
    rewrite H1. cbv beta iota. rewrite H2. reflexivity. }
  assert (Hw1 : w1 = wo) by (unfold w1, world_after; now rewrite Hfirst).
  (* the second session *)
  assert (Hsanej_j : sane env wj "jit.json" = true) by apply (sane_after_write env w _ _ Hsanej).
  assert (Hsanej_o : sane env wo "jit.json" = true)
    by (apply sane_written_other; assumption).
  assert (Hsaneo_o : sane env wo "onnx.json" = true)
    by apply (sane_after_write env wj _ _ Hsaneo_j).
  assert (Hdir : fs wo !! SNAPSHOT_DIR env = Some Dir) by now apply written_dir.
  assert (Hfj : fs wo !! jit_path env = Some (File tj)).
  { unfold wo. rewrite written_other; [apply written_lookup | | apply path_join_ne].
    apply path_join_inj. congruence. }
  assert (Hfo : fs wo !! onnx_path env = Some (File to)) by apply written_lookup.
  destruct (snapshot_test_passes env false jit done_jit wo Hlj Hsj Hdj Hsanej_o Hdir Hfj Hrtj)
    as [evs3 H3].
  destruct (snapshot_test_passes env true onnx done_onnx wo Hlo Hso Hdo Hsaneo_o Hdir Hfo Hrto)
    as [evs4 H4].
  assert (Hsecond : session wo
                    = (Ok [Ok tt; Ok tt], wo, SetNumThreads 1 :: evs3 ++ evs4 ++ [])).
  { unfold session, pytest_session, module_body, torch_set_num_threads, run_test, bind, emit.
    cbn [snapshot_test] in H3, H4. rewrite H3. cbv beta iota. rewrite H4. reflexivity. }
  rewrite Hw1. unfold outcome_of, world_after. rewrite Hfirst, Hsecond. cbn [fst snd].
  repeat split; assumption.
Qed.

Lemma first_session_creates_second_passes_witness :
  let env := Mock.env [] in
  let session := pytest_session env in
  let w1 := world_after session Mock.fresh in
  outcome_of session Mock.fresh
  = Ok [Raise (PytestFailed (created_message (jit_path env)));
        Raise (PytestFailed (created_message (onnx_path env)))] /\
  fs w1 !! jit_path env
  = Some (File (json_dumps env (test_data false mock_answers) dump_kwargs)) /\
  fs w1 !! onnx_path env
  = Some (File (json_dumps env (test_data true mock_answers) dump_kwargs)) /\
  outcome_of session w1 = Ok [Ok tt; Ok tt] /\
  world_after session w1 = w1.
Proof.
  apply (first_session_creates_second_passes (Mock.env []) (ModelHandle 0) (ModelHandle 1)
           mock_answers mock_answers Mock.fresh);
    try reflexivity.
  - repeat constructor.
  - repeat constructor.
  - eexists. split; vm_compute; reflexivity.
  - eexists. split; vm_compute; reflexivity.
Defined.

End SnapshotEdges.

(** ** Part XIX. The benchmark with counts that are not positive *)

Module BenchCounts.
Import Py Runtime Effects Bench BenchSpec FloatFacts MonadFacts BenchProofs.
Local Open Scope nat_scope.
Local Open Scope list_scope.

(** X16: when the model cannot be loaded the benchmark stops with the
    loader's exception right after the load call: no file is read and
    nothing is printed, whatever the configuration. *)
Theorem load_failure_reads_no_file (env : externals) (a : args) (e : exn) (w : world) :
  load_silero_vad env (load_kwargs a) = Raise e ->
  main env a w = (Raise e, w, [LoadModel (load_kwargs a)]).
Proof.
  intros Hload. unfold main.
  erewrite bind_raise; [reflexivity|]. now rewrite run_call_load, Hload.
Qed.

Lemma load_failure_reads_no_file_witness :
  main Scenario.env_no_model Scenario.args_three_files Mock.fresh
  = (Raise (ExternalError "model not found"), Mock.fresh,
     [LoadModel (load_kwargs Scenario.args_three_files)]).
Proof.
  apply load_failure_reads_no_file.
  reflexivity.
Defined.

(** X17: a [--runs] that is zero or negative stops the benchmark at its
    first file: the file is read and the warm-up calls are made, then the
    mean of no samples raises; the clock is never read, nothing is printed
    and no later file is read. *)
Theorem nonpositive_runs_stop_at_the_first_file (env : externals) (a : args) (m : model)
    (file : string) (rest : list string) (w : world) :
  audio a = file :: rest ->
  load_silero_vad env (load_kwargs a) = Ok m ->
  file_ok env a m file = true ->
  (runs a <= 0)%Z ->
  main env a w
  = (Raise StatisticsError, w,
     LoadModel (load_kwargs a)
     :: ReadAudio file (read_kwargs a)
     :: repeat (Detect (file_samples env a file) m (detect_kwargs a)) (Z.to_nat (warmup a))).
Proof.
  intros Haudio Hload Hok Hruns. unfold main. rewrite Haudio.
  erewrite bind_ok; [|rewrite run_call_load, Hload; reflexivity].
  cbn [for_each].
  erewrite bind_raise; [|apply bench_file_no_runs; assumption].
  reflexivity.
Qed.

Lemma nonpositive_runs_stop_at_the_first_file_witness :
  main (Mock.env []) Scenario.args_negative_runs Mock.fresh
  = (Raise StatisticsError, Mock.fresh,
     LoadModel (load_kwargs Scenario.args_negative_runs)
     :: ReadAudio "a.wav" (read_kwargs Scenario.args_negative_runs)
     :: repeat (Detect (file_samples (Mock.env []) Scenario.args_negative_runs "a.wav")
                  (ModelHandle 0) (detect_kwargs Scenario.args_negative_runs))
          (Z.to_nat (warmup Scenario.args_negative_runs))).
Proof.
  apply (nonpositive_runs_stop_at_the_first_file (Mock.env []) Scenario.args_negative_runs
           (ModelHandle 0) "a.wav" ["b.wav"] Mock.fresh).
  - reflexivity.
  - reflexivity.
  - vm_compute. reflexivity.
  - cbn. lia.
Defined.

(** X18: a [--warmup] that is zero or negative means no warm-up: in a file
    that is processed, the first detection call already comes between two
    clock readings, detection is called exactly [runs] times, and the
    report is the one of those [runs] samples. *)
Theorem nonpositive_warmup_is_no_warmup (env : externals) (a : args) (m : model)
    (file : string) (w : world) :
  file_ok env a m file = true ->
  (1 <= runs a)%Z ->
  (warmup a <= 0)%Z ->
  events_of (bench_file env a m file) w
  = ReadAudio file (read_kwargs a)
    :: concat (repeat [PerfCounter; Detect (file_samples env a file) m (detect_kwargs a);
                       PerfCounter] (Z.to_nat (runs a)))
    ++ map Print (file_report env a file (ticks w)) /\
  count is_detect (events_of (bench_file env a m file) w) = Z.to_nat (runs a).
Proof.
  intros Hok Hruns Hwarm. unfold events_of.
  rewrite (bench_file_completes env a m file w Hok Hruns). cbn [snd].
  unfold file_events. replace (Z.to_nat (warmup a)) with 0 by lia. cbn [repeat app].
  split; [reflexivity|].
  rewrite count_cons, count_app, count_concat_repeat, count_prints by reflexivity.
  cbn. lia.
Qed.

Lemma nonpositive_warmup_is_no_warmup_witness :
  events_of (bench_file (Mock.env []) Scenario.args_negative_warmup (ModelHandle 0) "a.wav")
    Mock.fresh
  = ReadAudio "a.wav" (read_kwargs Scenario.args_negative_warmup)
    :: concat (repeat [PerfCounter;
                       Detect (file_samples (Mock.env []) Scenario.args_negative_warmup "a.wav")
                         (ModelHandle 0) (detect_kwargs Scenario.args_negative_warmup);
                       PerfCounter] (Z.to_nat (runs Scenario.args_negative_warmup)))
    ++ map Print (file_report (Mock.env []) Scenario.args_negative_warmup "a.wav"
                    (ticks Mock.fresh)) /\
  count is_detect
    (events_of (bench_file (Mock.env []) Scenario.args_negative_warmup (ModelHandle 0) "a.wav")
       Mock.fresh)
  = Z.to_nat (runs Scenario.args_negative_warmup).
Proof.
  apply (nonpositive_warmup_is_no_warmup (Mock.env []) Scenario.args_negative_warmup
           (ModelHandle 0) "a.wav" Mock.fresh).
  - vm_compute. reflexivity.
  - cbn. lia.
  - cbn. lia.
Defined.

End BenchCounts.
